(** * FreeRTOS+POSIX timespec utilities

    A shallow embedding of
    [lib/FreeRTOS-Plus-POSIX/source/FreeRTOS_POSIX_utils.c] and the
    properties of its conversion, arithmetic, comparison and validation
    routines.

    Conventions of the embedding.
    - A C integer of width [w] is a [Z]; every arithmetic result and every
      cast is reduced to the width of its C type ([CInt.wrap_signed],
      [CInt.wrap_unsigned]).  C division and remainder truncate towards
      zero: [Z.quot] and [Z.rem].
      Signed overflow, which C leaves undefined, is wrap-around here.
    - A pointer argument is an [option]: [None] is [NULL], [Some v] is a
      valid pointer whose pointee holds [v].  A function that writes through
      a pointer returns the pointee's new content next to its status.  The
      pointers of one call are taken to designate distinct objects.
    - A function that can dereference a null pointer or divide by a
      configuration constant returns an [option]: [None] is a run without
      defined result (a null dereference, a division by zero). *)

From Stdlib Require Import ZArith Lia Bool List.
From Stdlib.Strings Require Byte.
Import ListNotations.

Local Open Scope Z_scope.

(** ** Machine integers *)

Module CInt.

(** Value of [z] converted to an unsigned integer type of [w] bits. *)
Definition wrap_unsigned (w z : Z) : Z := z mod 2 ^ w.

(** Value of [z] converted to a two's complement integer type of [w] bits. *)
Definition wrap_signed (w z : Z) : Z :=
  (z + 2 ^ (w - 1)) mod 2 ^ w - 2 ^ (w - 1).

Definition int64_t (z : Z) : Z := wrap_signed 64 z.
Definition uint64_t (z : Z) : Z := wrap_unsigned 64 z.

Definition INT64_MIN : Z := - 2 ^ 63.
Definition INT64_MAX : Z := 2 ^ 63 - 1.

(** [x != 0] as a C expression: 1 or 0. *)
Definition c_bool (b : bool) : Z := if b then 1 else 0.

End CInt.

Import CInt.

(** ** Data model *)

(** [struct timespec { time_t tv_sec; long tv_nsec; }] *)
Record timespec : Set := mk_timespec { tv_sec : Z; tv_nsec : Z }.

Definition set_tv_sec (ts : timespec) (v : Z) : timespec :=
  {| tv_sec := v; tv_nsec := tv_nsec ts |}.

Definition set_tv_nsec (ts : timespec) (v : Z) : timespec :=
  {| tv_sec := tv_sec ts; tv_nsec := v |}.

(** [p == NULL] *)
Definition is_null {A : Type} (p : option A) : bool :=
  match p with
  | None => true
  | Some _ => false
  end.

(** Modelled from the spec: the declaration of [time_t] (in
    [FreeRTOS_POSIX/sys/types.h]) is not among the sources; the data model
    gives the seconds field as a signed 64-bit integer. *)
Definition time_t (z : Z) : Z := wrap_signed 64 z.

(** Modelled from the spec: the macro [NANOSECONDS_PER_SECOND] (in
    [FreeRTOS_POSIX/time.h]) is not among the sources; its value 1e9 is the
    one of the spec and of the comment in [UTILS_ValidateTimespec]. *)
Definition NANOSECONDS_PER_SECOND : Z := 1000000000.

Definition zero_timespec : timespec := {| tv_sec := 0; tv_nsec := 0 |}.

(** A timespec in normalized form. *)
Definition normalized (ts : timespec) : Prop :=
  0 <= tv_nsec ts < NANOSECONDS_PER_SECOND.

(** The nanosecond count a timespec stands for, as an exact integer. *)
Definition total_ns (ts : timespec) : Z :=
  tv_sec ts * NANOSECONDS_PER_SECOND + tv_nsec ts.

(** Ceiling of the rational [a / b], for [0 < b]. *)
Definition ceil_div (a b : Z) : Z := - ((- a) / b).

(** The second, at most one, that the nanosecond field borrows in [x - y]. *)
Definition borrow (x y : timespec) : Z :=
  if tv_nsec x <? tv_nsec y then 1 else 0.

(** ** The routines *)

Section Utils.

(** Width of [long] on the target. *)
Variable LONG_BITS : Z.
(** Width of the kernel's [TickType_t]. *)
Variable TICK_BITS : Z.
(** Kernel configuration: ticks per second, and the derived tick length. *)
Variable configTICK_RATE_HZ : Z.
Variable NANOSECONDS_PER_TICK : Z.
(** Error codes of [FreeRTOS_POSIX/errno.h]. *)
Variables EINVAL ETIMEDOUT : Z.
(** Width of [size_t] on the target. *)
Variable SIZE_BITS : Z.

Definition long (z : Z) : Z := wrap_signed LONG_BITS z.
Definition TickType_t (z : Z) : Z := wrap_unsigned TICK_BITS z.

Definition UTILS_ValidateTimespec (pxTimespec : option timespec) : bool :=
  let xReturn := false in
  match pxTimespec with
  | Some ts =>
      (* Verify 0 <= tv_nsec < 1000000000. *)
      if (tv_nsec ts >=? 0) && (tv_nsec ts <? NANOSECONDS_PER_SECOND)
      then true
      else xReturn
  | None => xReturn
  end.

Definition UTILS_TimespecCompare (x y : option timespec) : Z :=
  match x, y with
  | None, None => 0
  | Some _, None => 1
  | None, Some _ => -1
  | Some xv, Some yv =>
      (* Compare seconds and then nano seconds *)
      if tv_sec xv >? tv_sec yv then 1
      else if tv_sec xv <? tv_sec yv then -1
      else if tv_nsec xv >? tv_nsec yv then 1
      else if tv_nsec xv <? tv_nsec yv then -1
      else 0
  end.

(** [pxDestination] is dereferenced unchecked: the embedding takes the
    pointee, and returns it as the function leaves it. *)
Definition UTILS_NanosecondsToTimespec
    (llSource : Z) (pxDestination : timespec) : timespec :=
  (* Convert to timespec. *)
  let d := set_tv_sec pxDestination
             (time_t (Z.quot llSource NANOSECONDS_PER_SECOND)) in
  let d := set_tv_nsec d (long (Z.rem llSource NANOSECONDS_PER_SECOND)) in
  (* Subtract from tv_sec if tv_nsec < 0. *)
  if tv_nsec d <? 0 then
    (* Compute the number of seconds to carry. *)
    let lCarrySec :=
      long (Z.quot (tv_nsec d) (long NANOSECONDS_PER_SECOND) + 1) in
    let d := set_tv_sec d (time_t (tv_sec d - time_t lCarrySec)) in
    set_tv_nsec d
      (long (tv_nsec d + long (lCarrySec * long NANOSECONDS_PER_SECOND)))
  else d.

Definition UTILS_TimespecAdd (x y pxResult : option timespec)
  : Z * option timespec :=
  match x, y, pxResult with
  | Some xv, Some yv, Some r =>
      (* Perform addition. *)
      let llResult64 :=
        int64_t
          (int64_t (int64_t (int64_t (tv_sec xv) * NANOSECONDS_PER_SECOND)
                    + int64_t (tv_nsec xv))
           + int64_t (int64_t (int64_t (tv_sec yv) * NANOSECONDS_PER_SECOND)
                      + int64_t (tv_nsec yv))) in
      (* Convert result to timespec. *)
      let r := UTILS_NanosecondsToTimespec llResult64 r in
      (c_bool (llResult64 <? 0), Some r)
  | _, _, _ => (-1, pxResult)
  end.

Definition UTILS_TimespecSubtract (x y pxResult : option timespec)
  : Z * option timespec :=
  match x, y, pxResult with
  | Some xv, Some yv, Some r =>
      let iCompareResult := UTILS_TimespecCompare x y in
      (* if x < y then result would be negative, return 1 *)
      if iCompareResult =? -1 then (1, Some r)
      (* if times are the same return zero *)
      else if iCompareResult =? 0 then
        let r := set_tv_sec r 0 in
        let r := set_tv_nsec r 0 in
        (0, Some r)
      else
        (* If x > y Perform subtraction. *)
        let r := set_tv_sec r (time_t (tv_sec xv - tv_sec yv)) in
        let r := set_tv_nsec r (long (tv_nsec xv - tv_nsec yv)) in
        (* check if nano seconds value needs to borrow *)
        let r :=
          if tv_nsec r <? 0 then
            let r := set_tv_sec r (time_t (tv_sec r - 1)) in
            set_tv_nsec r (long (tv_nsec r + long NANOSECONDS_PER_SECOND))
          else r in
        (* if nano second is negative after borrow, it is an overflow error *)
        if tv_nsec r <? 0 then (-1, Some r) else (0, Some r)
  | _, _, _ => (-1, pxResult)
  end.

(** [None]: the conversion block dereferences a null pointer (possible only
    if [EINVAL] were 0) or divides by a zero [(long) NANOSECONDS_PER_TICK]. *)
Definition UTILS_TimespecToTicks
    (pxTimespec : option timespec) (pxResult : option Z)
  : option (Z * option Z) :=
  let iStatus := 0 in
  (* Check parameters. *)
  let iStatus :=
    if is_null pxTimespec || is_null pxResult then EINVAL
    else if negb (is_null pxTimespec)
            && eqb (UTILS_ValidateTimespec pxTimespec) false then EINVAL
    else iStatus in
  if iStatus =? 0 then
    match pxTimespec, pxResult with
    | Some ts, Some _ =>
        if long NANOSECONDS_PER_TICK =? 0 then None
        else
          (* Convert timespec.tv_sec to ticks. *)
          let ullTotalTicks :=
            uint64_t (uint64_t configTICK_RATE_HZ * uint64_t (tv_sec ts)) in
          (* Convert timespec.tv_nsec to ticks. *)
          let lNanoseconds :=
            long (Z.quot (tv_nsec ts) (long NANOSECONDS_PER_TICK)
                  + long (c_bool
                            (negb (Z.rem (tv_nsec ts)
                                         (long NANOSECONDS_PER_TICK) =? 0)))) in
          (* Add the nanoseconds to the total ticks. *)
          let ullTotalTicks :=
            uint64_t (ullTotalTicks + uint64_t lNanoseconds) in
          (* Write result. *)
          Some (iStatus, Some (TickType_t ullTotalTicks))
    | _, _ => None
    end
  else Some (iStatus, pxResult).

Definition UTILS_AbsoluteTimespecToDeltaTicks
    (pxAbsoluteTime pxCurrentTime : option timespec) (pxResult : option Z)
  : option (Z * option Z) :=
  let iStatus := 0 in
  let xDifference := {| tv_sec := 0; tv_nsec := 0 |} in
  (* Check parameters. *)
  let iStatus :=
    if is_null pxAbsoluteTime || is_null pxCurrentTime || is_null pxResult
    then EINVAL
    else iStatus in
  (* Calculate the difference between the current time and absolute time. *)
  let '(iStatus, xDifference) :=
    if iStatus =? 0 then
      let '(iStatus, pxDifference) :=
        UTILS_TimespecSubtract pxAbsoluteTime pxCurrentTime
                               (Some xDifference) in
      let xDifference :=
        match pxDifference with
        | Some d => d
        | None => xDifference
        end in
      if iStatus =? 1 then
        (* pxAbsoluteTime was in the past. *)
        (ETIMEDOUT, xDifference)
      else if iStatus =? -1 then
        (* error *)
        (EINVAL, xDifference)
      else (iStatus, xDifference)
    else (iStatus, xDifference) in
  (* Convert the time difference to ticks. *)
  if iStatus =? 0 then UTILS_TimespecToTicks (Some xDifference) pxResult
  else Some (iStatus, pxResult).

Definition UTILS_TimespecAddNanoseconds
    (x : option timespec) (llNanoseconds : Z) (pxResult : option timespec)
  : Z * option timespec :=
  let y := {| tv_sec := time_t 0; tv_nsec := 0 |} in
  (* Check parameters. *)
  if is_null pxResult || is_null x then (-1, pxResult)
  else
    (* Convert llNanoseconds to a timespec. *)
    let y := UTILS_NanosecondsToTimespec llNanoseconds y in
    (* Perform addition. *)
    UTILS_TimespecAdd x (Some y) pxResult.

Definition size_t (z : Z) : Z := wrap_unsigned SIZE_BITS z.

(** The loop of [UTILS_strnlen].  [pcCharPointer] is the buffer from the
    pointer to its end; the condition reads [*pcCharPointer] before it looks
    at the bound, and a read at the end of the buffer has no defined
    result. *)
Fixpoint strnlen_loop
    (pcCharPointer : list Byte.byte) (xLength xMaxLength : Z) : option Z :=
  match pcCharPointer with
  | [] => None
  | c :: rest =>
      if negb (Byte.eqb c Byte.x00) && (xLength <? xMaxLength)
      then strnlen_loop rest (size_t (xLength + 1)) xMaxLength
      else Some xLength
  end.

(** [pcString] points to the first byte of a buffer, given whole. *)
Definition UTILS_strnlen
    (pcString : option (list Byte.byte)) (xMaxLength : Z)
  : option Z :=
  let xLength := 0 in
  match pcString with
  | Some s => strnlen_loop s xLength xMaxLength
  | None => Some xLength
  end.

Set Default Proof Using "Type".

(** ** Machine arithmetic *)

Ltac euclid := Z.to_euclidean_division_equations; lia.

Lemma pow2_63 : 2 ^ 63 = 9223372036854775808.
Proof. reflexivity. Qed.

Lemma pow2_64 : 2 ^ 64 = 18446744073709551616.
Proof. reflexivity. Qed.

Lemma int64_t_small (z : Z) :
  INT64_MIN <= z <= INT64_MAX -> int64_t z = z.
Proof.
  unfold INT64_MIN, INT64_MAX, int64_t, wrap_signed.
  change (64 - 1) with 63. rewrite pow2_63, pow2_64. intros H. euclid.
Qed.

Lemma int64_t_range (z : Z) : INT64_MIN <= int64_t z <= INT64_MAX.
Proof.
  unfold INT64_MIN, INT64_MAX, int64_t, wrap_signed.
  change (64 - 1) with 63. rewrite pow2_63, pow2_64. euclid.
Qed.

Lemma int64_t_add_l (a b : Z) : int64_t (int64_t a + b) = int64_t (a + b).
Proof.
  unfold int64_t, wrap_signed.
  change (64 - 1) with 63. rewrite pow2_63, pow2_64. euclid.
Qed.

Lemma int64_t_add_r (a b : Z) : int64_t (a + int64_t b) = int64_t (a + b).
Proof. rewrite Z.add_comm, int64_t_add_l. f_equal. lia. Qed.

Lemma int64_t_scale (a : Z) :
  int64_t (int64_t a * NANOSECONDS_PER_SECOND)
  = int64_t (a * NANOSECONDS_PER_SECOND).
Proof.
  unfold int64_t, wrap_signed, NANOSECONDS_PER_SECOND.
  change (64 - 1) with 63. rewrite pow2_63, pow2_64. euclid.
Qed.

Lemma time_t_small (z : Z) : INT64_MIN <= z <= INT64_MAX -> time_t z = z.
Proof. exact (int64_t_small z). Qed.

Lemma time_t_sub_l (a b : Z) : time_t (time_t a - b) = time_t (a - b).
Proof. exact (int64_t_add_l a (- b)). Qed.

Ltac unfold_consts :=
  unfold normalized, total_ns, INT64_MIN, INT64_MAX,
    NANOSECONDS_PER_SECOND in *;
  rewrite ?pow2_63, ?pow2_64 in *.

Lemma uint64_t_mul_add (a b n : Z) :
  uint64_t (uint64_t (uint64_t a * uint64_t b) + uint64_t n)
  = uint64_t (b * a + n).
Proof.
  unfold uint64_t, wrap_unsigned.
  rewrite Zplus_mod_idemp_l, Zplus_mod_idemp_r.
  rewrite <- (Zplus_mod_idemp_l (a mod 2 ^ 64 * (b mod 2 ^ 64))).
  rewrite Zmult_mod_idemp_l, Zmult_mod_idemp_r, Zplus_mod_idemp_l.
  f_equal. lia.
Qed.

Lemma ceil_div_bounds (a b : Z) :
  0 < b -> (ceil_div a b - 1) * b < a <= ceil_div a b * b.
Proof. intros Hb. unfold ceil_div. euclid. Qed.

(** The quotient and the round-up flag of the source add up to the
    ceiling. *)
Lemma quot_round_up (a b : Z) :
  0 <= a -> 0 < b ->
  Z.quot a b + c_bool (negb (Z.rem a b =? 0)) = ceil_div a b.
Proof.
  intros Ha Hb. unfold ceil_div.
  rewrite Z.quot_div_nonneg, Z.rem_mod_nonneg by assumption.
  destruct (Z.eqb_spec (a mod b) 0) as [Hz | Hnz]; cbn [negb c_bool].
  - rewrite Z.div_opp_l_z by lia. lia.
  - rewrite Z.div_opp_l_nz by lia. lia.
Qed.

Lemma ceil_div_range (a b : Z) : 0 <= a -> 0 < b -> 0 <= ceil_div a b <= a.
Proof.
  intros Ha Hb. pose proof (ceil_div_bounds a b Hb). nia.
Qed.

Lemma ceil_div_unique (a b q : Z) :
  0 < b -> (q - 1) * b < a <= q * b -> q = ceil_div a b.
Proof.
  intros Hb Hq. pose proof (ceil_div_bounds a b Hb). nia.
Qed.

Lemma ceil_div_le (a a' b : Z) :
  0 < b -> a <= a' -> ceil_div a b <= ceil_div a' b.
Proof.
  intros Hb Ha.
  pose proof (ceil_div_bounds a b Hb). pose proof (ceil_div_bounds a' b Hb).
  nia.
Qed.

(** ** Normalized timespecs *)

Lemma normalized_total_ns_inj (s t : timespec) :
  normalized s -> normalized t -> total_ns s = total_ns t -> s = t.
Proof.
  destruct s as [ss sn], t as [ts tn].
  unfold normalized, total_ns, NANOSECONDS_PER_SECOND. cbn [tv_sec tv_nsec].
  intros Hs Ht He.
  assert (ss = ts) by nia. subst ts.
  f_equal. lia.
Qed.

Lemma floor_normalized (n : Z) :
  normalized {| tv_sec := n / NANOSECONDS_PER_SECOND;
                tv_nsec := n mod NANOSECONDS_PER_SECOND |}.
Proof.
  unfold normalized, NANOSECONDS_PER_SECOND. cbn [tv_nsec].
  apply Z.mod_pos_bound. lia.
Qed.

Lemma floor_total_ns (n : Z) :
  total_ns {| tv_sec := n / NANOSECONDS_PER_SECOND;
              tv_nsec := n mod NANOSECONDS_PER_SECOND |} = n.
Proof.
  unfold total_ns, NANOSECONDS_PER_SECOND. cbn [tv_sec tv_nsec].
  euclid.
Qed.

(** ** Validation *)

Lemma UTILS_ValidateTimespec_normalized (ts : timespec) :
  normalized ts -> UTILS_ValidateTimespec (Some ts) = true.
Proof.
  unfold normalized. intros [Hlo Hhi]. cbn.
  destruct (Z.geb_spec (tv_nsec ts) 0); [| lia].
  destruct (Z.ltb_spec (tv_nsec ts) NANOSECONDS_PER_SECOND); [| lia].
  reflexivity.
Qed.

Lemma UTILS_ValidateTimespec_true (ts : timespec) :
  UTILS_ValidateTimespec (Some ts) = true -> normalized ts.
Proof.
  unfold normalized. cbn.
  destruct (Z.geb_spec (tv_nsec ts) 0); [| discriminate].
  destruct (Z.ltb_spec (tv_nsec ts) NANOSECONDS_PER_SECOND);
    [| discriminate].
  lia.
Qed.

(** C7.  [UTILS_ValidateTimespec] returns true if and only if its pointer
    is not null and [0 <= tv_nsec < 1000000000]; [tv_sec] has no influence
    on the result, a null pointer gives false, and so does
    [tv_nsec = 1000000000]. *)
Theorem UTILS_ValidateTimespec_iff :
  (forall p : option timespec,
      UTILS_ValidateTimespec p = true
      <-> exists ts, p = Some ts /\ 0 <= tv_nsec ts < 1000000000)
  /\ (forall sec sec' nsec : Z,
         UTILS_ValidateTimespec (Some {| tv_sec := sec; tv_nsec := nsec |})
         = UTILS_ValidateTimespec (Some {| tv_sec := sec'; tv_nsec := nsec |}))
  /\ UTILS_ValidateTimespec None = false
  /\ (forall sec : Z,
         UTILS_ValidateTimespec
           (Some {| tv_sec := sec; tv_nsec := 1000000000 |}) = false).
Proof.
  repeat split.
  - destruct p as [ts |]; cbn; [| discriminate].
    intros H. exists ts. split; [reflexivity |].
    destruct (Z.geb_spec (tv_nsec ts) 0); [| discriminate].
    destruct (Z.ltb_spec (tv_nsec ts) NANOSECONDS_PER_SECOND);
      [| discriminate].
    unfold NANOSECONDS_PER_SECOND in *. lia.
  - intros (ts & -> & Hlo & Hhi). cbn.
    destruct (Z.geb_spec (tv_nsec ts) 0); [| lia].
    destruct (Z.ltb_spec (tv_nsec ts) NANOSECONDS_PER_SECOND);
      [reflexivity |].
    unfold NANOSECONDS_PER_SECOND in *. lia.
Qed.

(** ** Comparison *)

Lemma UTILS_TimespecCompare_lt (x y : timespec) :
  UTILS_TimespecCompare (Some x) (Some y) = -1
  <-> tv_sec x < tv_sec y
      \/ (tv_sec x = tv_sec y /\ tv_nsec x < tv_nsec y).
Proof.
  cbn.
  destruct (Z.gtb_spec (tv_sec x) (tv_sec y));
    destruct (Z.ltb_spec (tv_sec x) (tv_sec y));
    destruct (Z.gtb_spec (tv_nsec x) (tv_nsec y));
    destruct (Z.ltb_spec (tv_nsec x) (tv_nsec y));
    split; intros; try discriminate; try reflexivity; lia.
Qed.

Lemma UTILS_TimespecCompare_gt (x y : timespec) :
  UTILS_TimespecCompare (Some x) (Some y) = 1
  <-> tv_sec y < tv_sec x
      \/ (tv_sec x = tv_sec y /\ tv_nsec y < tv_nsec x).
Proof.
  cbn.
  destruct (Z.gtb_spec (tv_sec x) (tv_sec y));
    destruct (Z.ltb_spec (tv_sec x) (tv_sec y));
    destruct (Z.gtb_spec (tv_nsec x) (tv_nsec y));
    destruct (Z.ltb_spec (tv_nsec x) (tv_nsec y));
    split; intros; try discriminate; try reflexivity; lia.
Qed.

Lemma UTILS_TimespecCompare_eq (x y : timespec) :
  UTILS_TimespecCompare (Some x) (Some y) = 0 <-> x = y.
Proof.
  destruct x as [xs xn], y as [ys yn]. cbn.
  destruct (Z.gtb_spec xs ys); destruct (Z.ltb_spec xs ys);
    destruct (Z.gtb_spec xn yn); destruct (Z.ltb_spec xn yn);
    split; intros Heq; try discriminate; try reflexivity;
    try (injection Heq; intros; lia).
  f_equal; lia.
Qed.

(** C9.  [UTILS_TimespecCompare] is a three-way comparison that accepts
    null pointers: two null pointers compare equal, a null pointer is below
    every timespec, and two timespecs are ordered by [tv_sec] first and
    [tv_nsec] second.  For all arguments, null and non-normalized ones
    included, swapping them negates the result, and every argument
    compares equal to itself. *)
Theorem UTILS_TimespecCompare_three_way :
  UTILS_TimespecCompare None None = 0
  /\ (forall x, UTILS_TimespecCompare (Some x) None = 1)
  /\ (forall y, UTILS_TimespecCompare None (Some y) = -1)
  /\ (forall x y : timespec,
         (UTILS_TimespecCompare (Some x) (Some y) = 1
          <-> tv_sec x > tv_sec y
              \/ (tv_sec x = tv_sec y /\ tv_nsec x > tv_nsec y))
         /\ (UTILS_TimespecCompare (Some x) (Some y) = -1
             <-> tv_sec x < tv_sec y
                 \/ (tv_sec x = tv_sec y /\ tv_nsec x < tv_nsec y))
         /\ (UTILS_TimespecCompare (Some x) (Some y) = 0
             <-> tv_sec x = tv_sec y /\ tv_nsec x = tv_nsec y))
  /\ (forall x y : option timespec,
         UTILS_TimespecCompare x y = - UTILS_TimespecCompare y x)
  /\ (forall x : option timespec, UTILS_TimespecCompare x x = 0).
Proof.
  split; [reflexivity |].
  split; [reflexivity |].
  split; [reflexivity |].
  split; [| split].
  - intros x y. split; [| split].
    + rewrite UTILS_TimespecCompare_gt. lia.
    + apply UTILS_TimespecCompare_lt.
    + rewrite UTILS_TimespecCompare_eq.
      destruct x, y; cbn [tv_sec tv_nsec]. split.
      * intros H; injection H; auto.
      * intros [-> ->]; reflexivity.
  - intros [x |] [y |]; try reflexivity. cbn.
    destruct (Z.gtb_spec (tv_sec x) (tv_sec y));
      destruct (Z.ltb_spec (tv_sec x) (tv_sec y));
      destruct (Z.gtb_spec (tv_sec y) (tv_sec x));
      destruct (Z.ltb_spec (tv_sec y) (tv_sec x));
      try lia; try reflexivity.
    destruct (Z.gtb_spec (tv_nsec x) (tv_nsec y));
      destruct (Z.ltb_spec (tv_nsec x) (tv_nsec y));
      destruct (Z.gtb_spec (tv_nsec y) (tv_nsec x));
      destruct (Z.ltb_spec (tv_nsec y) (tv_nsec x));
      try lia; reflexivity.
  - intros [x |]; [| reflexivity].
    apply UTILS_TimespecCompare_eq. reflexivity.
Qed.

Lemma normalized_gt (s t : timespec) :
  normalized s -> normalized t -> total_ns t < total_ns s ->
  UTILS_TimespecCompare (Some s) (Some t) = 1.
Proof.
  intros Hs Ht Hlt. apply UTILS_TimespecCompare_gt.
  unfold_consts. nia.
Qed.

(** ** Subtraction and addition, whatever the width of long *)

Lemma UTILS_TimespecSubtract_lt (x y out : timespec) :
  UTILS_TimespecCompare (Some x) (Some y) = -1 ->
  UTILS_TimespecSubtract (Some x) (Some y) (Some out) = (1, Some out).
Proof.
  intros Hc. unfold UTILS_TimespecSubtract. rewrite Hc. reflexivity.
Qed.

Lemma UTILS_TimespecSubtract_eq (x y out : timespec) :
  UTILS_TimespecCompare (Some x) (Some y) = 0 ->
  UTILS_TimespecSubtract (Some x) (Some y) (Some out)
  = (0, Some {| tv_sec := 0; tv_nsec := 0 |}).
Proof.
  intros Hc. unfold UTILS_TimespecSubtract. rewrite Hc. reflexivity.
Qed.

Lemma borrow_range (x y : timespec) : 0 <= borrow x y <= 1.
Proof. unfold borrow. destruct (tv_nsec x <? tv_nsec y); lia. Qed.

Lemma difference_nonneg (x y : timespec) :
  UTILS_TimespecCompare (Some x) (Some y) = 1 ->
  0 <= tv_sec x - tv_sec y - borrow x y.
Proof.
  rewrite UTILS_TimespecCompare_gt. unfold borrow.
  destruct (Z.ltb_spec (tv_nsec x) (tv_nsec y)); lia.
Qed.

Lemma UTILS_TimespecSubtract_status (x y out : timespec) :
  exists (st : Z) (d : timespec),
    UTILS_TimespecSubtract (Some x) (Some y) (Some out) = (st, Some d)
    /\ (st = -1 \/ st = 0 \/ st = 1).
Proof.
  unfold UTILS_TimespecSubtract.
  destruct (UTILS_TimespecCompare (Some x) (Some y) =? -1);
    [eexists _, _; split; [reflexivity | lia] |].
  destruct (UTILS_TimespecCompare (Some x) (Some y) =? 0);
    [eexists _, _; split; [reflexivity | lia] |].
  match goal with
  | |- context [if ?c then (-1, _) else _] => destruct c
  end; eexists _, _; split; try reflexivity; lia.
Qed.

Lemma UTILS_TimespecSubtract_null (x y pxResult : option timespec) :
  x = None \/ y = None \/ pxResult = None ->
  UTILS_TimespecSubtract x y pxResult = (-1, pxResult).
Proof.
  destruct x, y, pxResult; intros [H | [H | H]];
    try discriminate; reflexivity.
Qed.

Lemma sum_int64_t (x y : timespec) :
  int64_t
    (int64_t (int64_t (int64_t (tv_sec x) * NANOSECONDS_PER_SECOND)
              + int64_t (tv_nsec x))
     + int64_t (int64_t (int64_t (tv_sec y) * NANOSECONDS_PER_SECOND)
                + int64_t (tv_nsec y)))
  = int64_t (total_ns x + total_ns y).
Proof.
  unfold total_ns, int64_t, wrap_signed, NANOSECONDS_PER_SECOND.
  change (64 - 1) with 63. rewrite pow2_63, pow2_64.
  euclid.
Qed.

Lemma UTILS_TimespecAdd_eq (x y r : timespec) :
  UTILS_TimespecAdd (Some x) (Some y) (Some r)
  = (c_bool (int64_t (total_ns x + total_ns y) <? 0),
     Some (UTILS_NanosecondsToTimespec
             (int64_t (total_ns x + total_ns y)) r)).
Proof.
  unfold UTILS_TimespecAdd. rewrite sum_int64_t. reflexivity.
Qed.

(** ** Bounded string length *)

Lemma byte_eqb_x00 (c : Byte.byte) :
  Byte.eqb c Byte.x00 = false <-> c <> Byte.x00.
Proof.
  split.
  - intros Hf He. rewrite (Byte.byte_dec_lb He) in Hf. discriminate.
  - intros Hne. destruct (Byte.eqb c Byte.x00) eqn:He; [| reflexivity].
    elim Hne. apply Byte.byte_dec_bl. exact He.
Qed.

Lemma size_t_small (z : Z) : 0 <= z < 2 ^ SIZE_BITS -> size_t z = z.
Proof. intros H. unfold size_t, wrap_unsigned. apply Z.mod_small. exact H. Qed.

(** The loop on a buffer whose first terminator follows [pre]. *)
Lemma strnlen_loop_terminated (pre rest : list Byte.byte) :
  Forall (fun c => c <> Byte.x00) pre ->
  forall n xMaxLength : Z,
    0 <= n -> xMaxLength < 2 ^ SIZE_BITS ->
    strnlen_loop (pre ++ Byte.x00 :: rest) n xMaxLength
    = Some (Z.min (n + Z.of_nat (length pre)) (Z.max n xMaxLength)).
Proof.
  induction 1 as [| c pre Hc Hpre IH]; intros n xMaxLength Hn Hmax.
  - cbn. f_equal. lia.
  - cbn [app strnlen_loop length].
    apply byte_eqb_x00 in Hc. rewrite Hc. cbn [negb andb].
    destruct (Z.ltb_spec n xMaxLength) as [Hlt | Hge].
    + rewrite size_t_small by lia.
      rewrite IH by lia. f_equal. lia.
    + f_equal. lia.
Qed.

(** The loop on a buffer without terminator. *)
Lemma strnlen_loop_unterminated (s : list Byte.byte) :
  Forall (fun c => c <> Byte.x00) s ->
  forall n xMaxLength : Z,
    0 <= n <= xMaxLength -> xMaxLength < 2 ^ SIZE_BITS ->
    strnlen_loop s n xMaxLength
    = if xMaxLength <? n + Z.of_nat (length s) then Some xMaxLength else None.
Proof.
  induction 1 as [| c s Hc Hs IH]; intros n xMaxLength Hn Hmax.
  - cbn. destruct (Z.ltb_spec xMaxLength (n + 0)); [lia | reflexivity].
  - cbn [strnlen_loop length].
    apply byte_eqb_x00 in Hc. rewrite Hc. cbn [negb andb].
    destruct (Z.ltb_spec n xMaxLength) as [Hlt | Hge].
    + rewrite size_t_small by lia.
      rewrite IH by lia.
      replace (n + 1 + Z.of_nat (length s))
        with (n + Z.of_nat (S (length s))) by lia.
      reflexivity.
    + destruct (Z.ltb_spec xMaxLength (n + Z.of_nat (S (length s))));
        [f_equal |]; lia.
Qed.



(** X1.  [UTILS_strnlen] of a null pointer is 0.  On a buffer that holds a
    terminator it returns the number of bytes before the first one, capped
    at [xMaxLength], and reads nothing beyond the buffer. *)
Theorem UTILS_strnlen_terminated :
  (forall xMaxLength : Z, UTILS_strnlen None xMaxLength = Some 0)
  /\ (forall (pre rest : list Byte.byte) (xMaxLength : Z),
         Forall (fun c => c <> Byte.x00) pre ->
         0 <= xMaxLength < 2 ^ SIZE_BITS ->
         UTILS_strnlen (Some (pre ++ Byte.x00 :: rest)) xMaxLength
         = Some (Z.min (Z.of_nat (length pre)) xMaxLength)).
Proof.
  split; [reflexivity |].
  intros pre rest xMaxLength Hpre Hmax. unfold UTILS_strnlen.
  rewrite strnlen_loop_terminated by (assumption || lia).
  f_equal. lia.
Qed.

(** X2.  On a buffer of [n] bytes without terminator, [UTILS_strnlen]
    returns [xMaxLength] when [xMaxLength < n]; when [n <= xMaxLength], and
    so for a bound equal to the size of the buffer, it reads the byte after
    the buffer and has no defined result. *)
Theorem UTILS_strnlen_unterminated (s : list Byte.byte) (xMaxLength : Z) :
  Forall (fun c => c <> Byte.x00) s ->
  0 <= xMaxLength < 2 ^ SIZE_BITS ->
  (xMaxLength < Z.of_nat (length s) ->
   UTILS_strnlen (Some s) xMaxLength = Some xMaxLength)
  /\ (Z.of_nat (length s) <= xMaxLength ->
      UTILS_strnlen (Some s) xMaxLength = None).
Proof.
  intros Hs Hmax. unfold UTILS_strnlen.
  rewrite strnlen_loop_unterminated by (assumption || lia).
  cbn [Z.add].
  destruct (Z.ltb_spec xMaxLength (Z.of_nat (length s))); split;
    intros; try reflexivity; lia.
Qed.


(** ** Order and commutation *)

(** X4.  [UTILS_TimespecCompare] is a total preorder on pointers to
    timespecs, null included: it returns -1, 0 or 1; "not above" is
    transitive, strictly so when one step is strict; and it returns 0 only
    for two null pointers or two timespecs with the same fields. *)
Theorem UTILS_TimespecCompare_order :
  (forall x y : option timespec,
      UTILS_TimespecCompare x y = -1
      \/ UTILS_TimespecCompare x y = 0
      \/ UTILS_TimespecCompare x y = 1)
  /\ (forall x y z : option timespec,
         UTILS_TimespecCompare x y <> 1 ->
         UTILS_TimespecCompare y z <> 1 ->
         UTILS_TimespecCompare x z <> 1)
  /\ (forall x y z : option timespec,
         UTILS_TimespecCompare x y = -1 ->
         UTILS_TimespecCompare y z <> 1 ->
         UTILS_TimespecCompare x z = -1)
  /\ (forall x y : option timespec,
         UTILS_TimespecCompare x y = 0 <-> x = y).
Proof.
  assert (Hcases : forall x y : timespec,
             UTILS_TimespecCompare (Some x) (Some y) = -1
             \/ UTILS_TimespecCompare (Some x) (Some y) = 0
             \/ UTILS_TimespecCompare (Some x) (Some y) = 1).
  { intros x y. cbn.
    destruct (tv_sec x >? tv_sec y); [auto |].
    destruct (tv_sec x <? tv_sec y); [auto |].
    destruct (tv_nsec x >? tv_nsec y); [auto |].
    destruct (tv_nsec x <? tv_nsec y); auto. }
  assert (Hle : forall x y : timespec,
             UTILS_TimespecCompare (Some x) (Some y) <> 1
             <-> tv_sec x < tv_sec y
                 \/ (tv_sec x = tv_sec y /\ tv_nsec x <= tv_nsec y)).
  { intros x y. rewrite UTILS_TimespecCompare_gt. lia. }
  split; [| split; [| split]].
  - intros [x |] [y |]; [apply Hcases | right; right | left | right; left];
      reflexivity.
  - intros [x |] [y |] [z |]; try (cbn; congruence).
    rewrite !Hle. lia.
  - intros [x |] [y |] [z |]; try (cbn; congruence).
    rewrite Hle, !UTILS_TimespecCompare_lt. lia.
  - intros [x |] [y |].
    + rewrite UTILS_TimespecCompare_eq. split; congruence.
    + split; discriminate.
    + split; discriminate.
    + split; reflexivity.
Qed.

Lemma compare_sgn_total_ns (x y : timespec) :
  normalized x -> normalized y ->
  UTILS_TimespecCompare (Some x) (Some y)
  = Z.sgn (total_ns x - total_ns y).
Proof.
  unfold normalized, total_ns, NANOSECONDS_PER_SECOND.
  intros Hx Hy. cbn.
  destruct (Z.gtb_spec (tv_sec x) (tv_sec y));
    [symmetry; apply Z.sgn_pos; nia |].
  destruct (Z.ltb_spec (tv_sec x) (tv_sec y));
    [symmetry; apply Z.sgn_neg; nia |].
  assert (Hs : tv_sec x = tv_sec y) by lia. rewrite Hs.
  destruct (Z.gtb_spec (tv_nsec x) (tv_nsec y));
    [symmetry; apply Z.sgn_pos; lia |].
  destruct (Z.ltb_spec (tv_nsec x) (tv_nsec y));
    [symmetry; apply Z.sgn_neg; lia |].
  symmetry. apply Z.sgn_null. lia.
Qed.

(** X5.  On normalized timespecs [UTILS_TimespecCompare] is the
    chronological order: its result is the sign of the difference of the
    nanosecond counts [tv_sec * 1e9 + tv_nsec]. *)
Theorem UTILS_TimespecCompare_chronological (x y : timespec) :
  0 <= tv_nsec x < 1000000000 ->
  0 <= tv_nsec y < 1000000000 ->
  UTILS_TimespecCompare (Some x) (Some y)
  = Z.sgn ((tv_sec x * 1000000000 + tv_nsec x)
           - (tv_sec y * 1000000000 + tv_nsec y)).
Proof.
  intros Hx Hy. exact (compare_sgn_total_ns x y Hx Hy).
Qed.

(** X6.  [UTILS_TimespecAdd] is commutative: for all arguments, null
    pointers included, swapping [x] and [y] changes neither the status nor
    what is written. *)
Theorem UTILS_TimespecAdd_comm (x y pxResult : option timespec) :
  UTILS_TimespecAdd x y pxResult = UTILS_TimespecAdd y x pxResult.
Proof.
  destruct x as [x |], y as [y |], pxResult as [r |]; try reflexivity.
  rewrite !UTILS_TimespecAdd_eq.
  rewrite (Z.add_comm (total_ns x)). reflexivity.
Qed.

(** X7.  The status of [UTILS_TimespecSubtract] is -1, 0 or 1.  It is -1
    with [*pxResult] untouched when a pointer is null; it is 1 exactly when
    no pointer is null and [x] compares below [y], and then too
    [*pxResult] is untouched. *)
Theorem UTILS_TimespecSubtract_status_meaning
    (x y pxResult : option timespec) :
  (fst (UTILS_TimespecSubtract x y pxResult) = -1
   \/ fst (UTILS_TimespecSubtract x y pxResult) = 0
   \/ fst (UTILS_TimespecSubtract x y pxResult) = 1)
  /\ (x = None \/ y = None \/ pxResult = None ->
      UTILS_TimespecSubtract x y pxResult = (-1, pxResult))
  /\ (fst (UTILS_TimespecSubtract x y pxResult) = 1
      <-> x <> None /\ y <> None /\ pxResult <> None
          /\ UTILS_TimespecCompare x y = -1)
  /\ (fst (UTILS_TimespecSubtract x y pxResult) = 1 ->
      snd (UTILS_TimespecSubtract x y pxResult) = pxResult).
Proof.
  split; [| split; [apply UTILS_TimespecSubtract_null |]].
  - destruct x as [x |], y as [y |], pxResult as [r |]; cbn [fst]; auto.
    destruct (UTILS_TimespecSubtract_status x y r) as (st & d & -> & Hst).
    exact Hst.
  - destruct x as [x |], y as [y |], pxResult as [r |];
      try (cbn; split;
           [split; [discriminate | intros (Hx & Hy & Hr & _); congruence]
           | discriminate]).
    unfold UTILS_TimespecSubtract.
    destruct (Z.eqb_spec (UTILS_TimespecCompare (Some x) (Some y)) (-1))
      as [Hc | Hc].
    + cbn [fst snd]. split; [split |]; intros _; try reflexivity.
      repeat split; try discriminate. exact Hc.
    + destruct (UTILS_TimespecCompare (Some x) (Some y) =? 0).
      * cbn [fst snd].
        split; [split; [discriminate | intros (_ & _ & _ & H); contradiction]
               | discriminate].
      * match goal with
        | |- context [if ?c then (-1, _) else _] => destruct c
        end; cbn [fst snd];
          (split;
           [split; [discriminate | intros (_ & _ & _ & H); contradiction]
           | discriminate]).
Qed.

(** ** Arithmetic on a target whose long has at least 32 bits *)

(** C gives [long] at least 32 bits. *)
Hypothesis LONG_BITS_min : 32 <= LONG_BITS.

Lemma long_half : 2 ^ 31 <= 2 ^ (LONG_BITS - 1).
Proof using LONG_BITS_min. apply Z.pow_le_mono_r; lia. Qed.

Lemma long_small (z : Z) : - 2 ^ 31 <= z < 2 ^ 31 -> long z = z.
Proof using LONG_BITS_min.
  intros H. pose proof long_half as Hh.
  unfold long, wrap_signed.
  replace (2 ^ LONG_BITS) with (2 * 2 ^ (LONG_BITS - 1)).
  - rewrite Z.mod_small; lia.
  - rewrite <- Z.pow_succ_r by lia. f_equal. lia.
Qed.

Lemma long_NANOSECONDS_PER_SECOND :
  long NANOSECONDS_PER_SECOND = NANOSECONDS_PER_SECOND.
Proof using LONG_BITS_min.
  apply long_small. unfold NANOSECONDS_PER_SECOND. lia.
Qed.

(** ** Decomposition of a nanosecond count *)

(** On the whole [int64_t] range the truncating division of the source,
    followed by its carry, is the flooring division. *)
Lemma UTILS_NanosecondsToTimespec_floor (n : Z) (d : timespec) :
  INT64_MIN <= n <= INT64_MAX ->
  UTILS_NanosecondsToTimespec n d
  = {| tv_sec := n / NANOSECONDS_PER_SECOND;
       tv_nsec := n mod NANOSECONDS_PER_SECOND |}.
Proof using LONG_BITS_min.
  intros Hn.
  unfold UTILS_NanosecondsToTimespec, set_tv_sec, set_tv_nsec.
  cbn [tv_sec tv_nsec].
  rewrite long_NANOSECONDS_PER_SECOND.
  assert (Hr : long (Z.rem n NANOSECONDS_PER_SECOND)
               = Z.rem n NANOSECONDS_PER_SECOND)
    by (apply long_small; unfold_consts; euclid).
  assert (Hq : time_t (Z.quot n NANOSECONDS_PER_SECOND)
               = Z.quot n NANOSECONDS_PER_SECOND)
    by (apply time_t_small; unfold_consts; euclid).
  rewrite Hr, Hq.
  destruct (Z.ltb_spec (Z.rem n NANOSECONDS_PER_SECOND) 0) as [Hneg | Hpos].
  - assert (Hc : Z.quot (Z.rem n NANOSECONDS_PER_SECOND)
                        NANOSECONDS_PER_SECOND = 0)
      by (unfold_consts; euclid).
    rewrite Hc. change (0 + 1) with 1.
    rewrite (long_small 1) by lia.
    rewrite (time_t_small 1) by (unfold_consts; lia).
    rewrite Z.mul_1_l, long_NANOSECONDS_PER_SECOND.
    rewrite long_small by (unfold_consts; euclid).
    rewrite time_t_small by (unfold_consts; euclid).
    f_equal; unfold_consts; euclid.
  - f_equal; unfold_consts; euclid.
Qed.

(** A normalized timespec is determined by its nanosecond count. *)

(** C5.  [UTILS_NanosecondsToTimespec] has no failure path; for every
    signed 64-bit count [n] it writes a timespec with
    [0 <= tv_nsec < 1000000000] and, in exact integer arithmetic,
    [tv_sec * 1000000000 + tv_nsec = n].  Hence a normalized timespec whose
    nanosecond count fits [int64_t] is reproduced from that count, and the
    count -1 gives [{-1, 999999999}]. *)
Theorem UTILS_NanosecondsToTimespec_decomposition :
  (forall (n : Z) (d : timespec),
      INT64_MIN <= n <= INT64_MAX ->
      0 <= tv_nsec (UTILS_NanosecondsToTimespec n d) < 1000000000
      /\ tv_sec (UTILS_NanosecondsToTimespec n d) * 1000000000
         + tv_nsec (UTILS_NanosecondsToTimespec n d) = n)
  /\ (forall t d : timespec,
         0 <= tv_nsec t < 1000000000 ->
         INT64_MIN <= tv_sec t * 1000000000 + tv_nsec t <= INT64_MAX ->
         UTILS_NanosecondsToTimespec
           (tv_sec t * 1000000000 + tv_nsec t) d = t)
  /\ (forall d : timespec,
         UTILS_NanosecondsToTimespec (-1) d
         = {| tv_sec := -1; tv_nsec := 999999999 |}).
Proof using LONG_BITS_min.
  split; [| split].
  - intros n d Hn.
    rewrite UTILS_NanosecondsToTimespec_floor by assumption.
    split.
    + exact (floor_normalized n).
    + exact (floor_total_ns n).
  - intros t d Hnorm Hfit.
    rewrite UTILS_NanosecondsToTimespec_floor by assumption.
    apply normalized_total_ns_inj.
    + apply floor_normalized.
    + exact Hnorm.
    + apply floor_total_ns.
  - intros d.
    rewrite UTILS_NanosecondsToTimespec_floor by (unfold_consts; lia).
    reflexivity.
Qed.

(** ** Subtraction *)

Lemma UTILS_TimespecSubtract_gt (x y out : timespec) :
  normalized x -> normalized y ->
  UTILS_TimespecCompare (Some x) (Some y) = 1 ->
  UTILS_TimespecSubtract (Some x) (Some y) (Some out)
  = (0, Some {| tv_sec := time_t (tv_sec x - tv_sec y - borrow x y);
                tv_nsec := tv_nsec x - tv_nsec y
                           + borrow x y * NANOSECONDS_PER_SECOND |}).
Proof using LONG_BITS_min.
  intros Hx Hy Hc.
  unfold UTILS_TimespecSubtract. rewrite Hc.
  change (1 =? -1) with false. change (1 =? 0) with false. cbv iota.
  unfold set_tv_sec, set_tv_nsec, borrow. cbn [tv_sec tv_nsec].
  rewrite long_NANOSECONDS_PER_SECOND.
  rewrite (long_small (tv_nsec x - tv_nsec y)) by (unfold_consts; lia).
  destruct (Z.ltb_spec (tv_nsec x) (tv_nsec y)) as [Hb | Hb].
  - destruct (Z.ltb_spec (tv_nsec x - tv_nsec y) 0) as [_ | Hn]; [| lia].
    cbn [tv_sec tv_nsec].
    rewrite long_small by (unfold_consts; lia).
    destruct (Z.ltb_spec
                (tv_nsec x - tv_nsec y + NANOSECONDS_PER_SECOND) 0)
      as [Hn | _]; [unfold_consts; lia |].
    rewrite time_t_sub_l. do 3 f_equal; lia.
  - destruct (Z.ltb_spec (tv_nsec x - tv_nsec y) 0) as [Hn | _]; [lia |].
    cbn [tv_sec tv_nsec].
    destruct (Z.ltb_spec (tv_nsec x - tv_nsec y) 0) as [Hn | _]; [lia |].
    rewrite Z.sub_0_r. do 3 f_equal; lia.
Qed.

(** C3.  With no pointer null: when [x] compares below [y],
    [UTILS_TimespecSubtract] returns 1 and leaves [*pxResult] as it was;
    when they compare equal it writes [{0, 0}] and returns 0; when [x]
    compares above [y] and both are normalized it returns 0 and writes the
    difference of the fields, the nanoseconds borrowing at most one second
    ([tv_sec] as the [time_t] subtraction gives it, the exact difference
    whenever that is representable).  [{5,0}] minus [{3,500000000}] is
    [{1,500000000}]. *)
Theorem UTILS_TimespecSubtract_cases (x y out : timespec) :
  (UTILS_TimespecCompare (Some x) (Some y) = -1 ->
   UTILS_TimespecSubtract (Some x) (Some y) (Some out) = (1, Some out))
  /\ (UTILS_TimespecCompare (Some x) (Some y) = 0 ->
      UTILS_TimespecSubtract (Some x) (Some y) (Some out)
      = (0, Some {| tv_sec := 0; tv_nsec := 0 |}))
  /\ (UTILS_TimespecCompare (Some x) (Some y) = 1 ->
      0 <= tv_nsec x < 1000000000 ->
      0 <= tv_nsec y < 1000000000 ->
      exists b : Z,
        0 <= b <= 1
        /\ UTILS_TimespecSubtract (Some x) (Some y) (Some out)
           = (0, Some {| tv_sec := time_t (tv_sec x - tv_sec y - b);
                         tv_nsec := tv_nsec x - tv_nsec y
                                    + b * 1000000000 |})
        /\ 0 <= tv_nsec x - tv_nsec y + b * 1000000000 < 1000000000
        /\ (tv_sec x - tv_sec y <= INT64_MAX ->
            time_t (tv_sec x - tv_sec y - b) = tv_sec x - tv_sec y - b))
  /\ UTILS_TimespecSubtract
       (Some {| tv_sec := 5; tv_nsec := 0 |})
       (Some {| tv_sec := 3; tv_nsec := 500000000 |}) (Some out)
     = (0, Some {| tv_sec := 1; tv_nsec := 500000000 |}).
Proof using LONG_BITS_min.
  split; [apply UTILS_TimespecSubtract_lt |].
  split; [apply UTILS_TimespecSubtract_eq |].
  split.
  - intros Hc Hx Hy. exists (borrow x y).
    pose proof (borrow_range x y) as Hb.
    pose proof (difference_nonneg x y Hc) as Hd.
    split; [exact Hb |].
    split; [apply UTILS_TimespecSubtract_gt; assumption |].
    split.
    + unfold borrow in *.
      destruct (Z.ltb_spec (tv_nsec x) (tv_nsec y)); lia.
    + intros Hfit. apply time_t_small. unfold_consts. lia.
  - rewrite UTILS_TimespecSubtract_gt.
    + reflexivity.
    + unfold_consts; cbn; lia.
    + unfold_consts; cbn; lia.
    + reflexivity.
Qed.

(** C4, as the code has it.  For normalized [x] and [y] with [x] comparing
    above [y], [UTILS_TimespecSubtract] does not return -1: after the
    borrow the nanoseconds are not negative. *)
Theorem UTILS_TimespecSubtract_normalized_no_error (x y out : timespec) :
  0 <= tv_nsec x < 1000000000 ->
  0 <= tv_nsec y < 1000000000 ->
  UTILS_TimespecCompare (Some x) (Some y) = 1 ->
  fst (UTILS_TimespecSubtract (Some x) (Some y) (Some out)) <> -1.
Proof using LONG_BITS_min.
  intros Hx Hy Hc.
  rewrite UTILS_TimespecSubtract_gt by assumption.
  cbn. discriminate.
Qed.

(** ** Addition *)

(** C6.  [UTILS_TimespecAdd] returns -1 and leaves [*pxResult] alone when
    one of its three pointers is null.  Otherwise it writes what
    [UTILS_NanosecondsToTimespec] makes of the 64-bit signed sum
    [(x.tv_sec * 1e9 + x.tv_nsec) + (y.tv_sec * 1e9 + y.tv_nsec)], a
    normalized timespec of exactly that many nanoseconds, and returns 1
    when that sum is negative and 0 when it is not: never the -1 of the
    invalid-argument error. *)
Theorem UTILS_TimespecAdd_sum :
  (forall x y pxResult : option timespec,
      x = None \/ y = None \/ pxResult = None ->
      UTILS_TimespecAdd x y pxResult = (-1, pxResult))
  /\ (forall x y r : timespec,
         let sum :=
           int64_t ((tv_sec x * 1000000000 + tv_nsec x)
                    + (tv_sec y * 1000000000 + tv_nsec y)) in
         UTILS_TimespecAdd (Some x) (Some y) (Some r)
         = (if sum <? 0 then 1 else 0,
            Some (UTILS_NanosecondsToTimespec sum r))
         /\ normalized (UTILS_NanosecondsToTimespec sum r)
         /\ total_ns (UTILS_NanosecondsToTimespec sum r) = sum
         /\ fst (UTILS_TimespecAdd (Some x) (Some y) (Some r)) <> -1).
Proof using LONG_BITS_min.
  split.
  - intros [x |] [y |] [r |] H; try reflexivity.
    destruct H as [H | [H | H]]; discriminate.
  - intros x y r sum.
    pose proof (UTILS_TimespecAdd_eq x y r) as Heq.
    change (int64_t (total_ns x + total_ns y)) with sum in Heq.
    pose proof (int64_t_range (total_ns x + total_ns y)) as Hrange.
    change (int64_t (total_ns x + total_ns y)) with sum in Hrange.
    rewrite Heq, (UTILS_NanosecondsToTimespec_floor sum r Hrange).
    split; [reflexivity |].
    split; [apply floor_normalized |].
    split; [apply floor_total_ns |].
    cbn [fst]. destruct (sum <? 0); discriminate.
Qed.

(** ** Addition followed by subtraction *)

(** C8, as the code has it.  For a normalized [y] and an [x] of
    non-negative nanosecond count, both counts and their sum within
    [int64_t]: [UTILS_TimespecAdd] of [x] and [y] followed by
    [UTILS_TimespecSubtract] of [y] from that sum returns 0 and yields the
    normalized timespec of [x]'s nanosecond count, which is [x] itself when
    [x] is normalized. *)
Theorem UTILS_TimespecAdd_then_Subtract (x y s0 r0 : timespec) :
  0 <= tv_nsec y < 1000000000 ->
  0 <= total_ns x <= INT64_MAX ->
  INT64_MIN <= total_ns y <= INT64_MAX ->
  INT64_MIN <= total_ns x + total_ns y <= INT64_MAX ->
  exists s r : timespec,
    snd (UTILS_TimespecAdd (Some x) (Some y) (Some s0)) = Some s
    /\ UTILS_TimespecSubtract (Some s) (Some y) (Some r0) = (0, Some r)
    /\ 0 <= tv_nsec r < 1000000000
    /\ total_ns r = total_ns x
    /\ (0 <= tv_nsec x < 1000000000 -> r = x).
Proof using LONG_BITS_min.
  intros Hy Hx Hyfit Hsum.
  rewrite UTILS_TimespecAdd_eq, int64_t_small by assumption.
  rewrite UTILS_NanosecondsToTimespec_floor by assumption.
  set (s := {| tv_sec := (total_ns x + total_ns y) / NANOSECONDS_PER_SECOND;
               tv_nsec := (total_ns x + total_ns y)
                            mod NANOSECONDS_PER_SECOND |}).
  assert (Hs : normalized s) by apply floor_normalized.
  assert (Hts : total_ns s = total_ns x + total_ns y)
    by apply floor_total_ns.
  exists s. cbn [snd].
  assert (Hcase : total_ns x = 0 \/ 0 < total_ns x) by lia.
  destruct Hcase as [Hzero | Hpos].
  - exists {| tv_sec := 0; tv_nsec := 0 |}.
    assert (Hsy : s = y)
      by (apply normalized_total_ns_inj; [assumption .. | lia]).
    split; [reflexivity |].
    split; [apply UTILS_TimespecSubtract_eq, UTILS_TimespecCompare_eq;
            exact Hsy |].
    split; [cbn; lia |].
    split; [rewrite Hzero; reflexivity |].
    intros Hxn. apply normalized_total_ns_inj;
      [unfold normalized, NANOSECONDS_PER_SECOND; cbn; lia | exact Hxn
       | rewrite Hzero; reflexivity].
  - assert (Hc : UTILS_TimespecCompare (Some s) (Some y) = 1)
      by (apply normalized_gt; [assumption .. | lia]).
    pose proof (borrow_range s y) as Hb.
    pose proof (difference_nonneg s y Hc) as Hd.
    assert (Hrn : 0 <= tv_nsec s - tv_nsec y
                       + borrow s y * NANOSECONDS_PER_SECOND
                  < NANOSECONDS_PER_SECOND).
    { unfold borrow in *.
      destruct (Z.ltb_spec (tv_nsec s) (tv_nsec y)); unfold_consts; lia. }
    assert (Hexact :
              (tv_sec s - tv_sec y - borrow s y) * NANOSECONDS_PER_SECOND
              + (tv_nsec s - tv_nsec y
                 + borrow s y * NANOSECONDS_PER_SECOND) = total_ns x)
      by (unfold total_ns in *; lia).
    assert (Ht : time_t (tv_sec s - tv_sec y - borrow s y)
                 = tv_sec s - tv_sec y - borrow s y)
      by (apply time_t_small; unfold_consts; lia).
    exists {| tv_sec := tv_sec s - tv_sec y - borrow s y;
              tv_nsec := tv_nsec s - tv_nsec y
                         + borrow s y * NANOSECONDS_PER_SECOND |}.
    split; [reflexivity |].
    split; [rewrite UTILS_TimespecSubtract_gt, Ht by assumption;
            reflexivity |].
    split; [exact Hrn |].
    split; [exact Hexact |].
    intros Hxn. apply normalized_total_ns_inj;
      [exact Hrn | exact Hxn | exact Hexact].
Qed.

(** ** Sums and differences as nanosecond counts *)

Lemma UTILS_TimespecAdd_floor (x y r : timespec) :
  UTILS_TimespecAdd (Some x) (Some y) (Some r)
  = (c_bool (int64_t (total_ns x + total_ns y) <? 0),
     Some {| tv_sec := int64_t (total_ns x + total_ns y)
                       / NANOSECONDS_PER_SECOND;
             tv_nsec := int64_t (total_ns x + total_ns y)
                        mod NANOSECONDS_PER_SECOND |}).
Proof using LONG_BITS_min.
  rewrite UTILS_TimespecAdd_eq.
  rewrite UTILS_NanosecondsToTimespec_floor by apply int64_t_range.
  reflexivity.
Qed.

Lemma UTILS_TimespecAddNanoseconds_floor (x r : timespec) (n : Z) :
  INT64_MIN <= n <= INT64_MAX ->
  UTILS_TimespecAddNanoseconds (Some x) n (Some r)
  = (c_bool (int64_t (total_ns x + n) <? 0),
     Some {| tv_sec := int64_t (total_ns x + n) / NANOSECONDS_PER_SECOND;
             tv_nsec := int64_t (total_ns x + n)
                        mod NANOSECONDS_PER_SECOND |}).
Proof using LONG_BITS_min.
  intros Hn. unfold UTILS_TimespecAddNanoseconds. cbn [is_null orb].
  rewrite UTILS_NanosecondsToTimespec_floor by exact Hn.
  rewrite UTILS_TimespecAdd_floor, floor_total_ns. reflexivity.
Qed.

Lemma floor_of_normalized (t : timespec) :
  normalized t ->
  {| tv_sec := total_ns t / NANOSECONDS_PER_SECOND;
     tv_nsec := total_ns t mod NANOSECONDS_PER_SECOND |} = t.
Proof.
  intros Ht. apply normalized_total_ns_inj.
  - apply floor_normalized.
  - exact Ht.
  - apply floor_total_ns.
Qed.

(** X8.  [UTILS_TimespecAddNanoseconds] returns -1 and leaves [*pxResult]
    alone when [x] or [pxResult] is null.  Otherwise it writes the
    normalized timespec whose nanosecond count is the 64-bit signed sum of
    [x]'s count and [llNanoseconds], the exact sum when that fits
    [int64_t], and returns 1 when the 64-bit sum is negative and 0 when it
    is not. *)
Theorem UTILS_TimespecAddNanoseconds_sum :
  (forall (x pxResult : option timespec) (n : Z),
      x = None \/ pxResult = None ->
      UTILS_TimespecAddNanoseconds x n pxResult = (-1, pxResult))
  /\ (forall (x r : timespec) (n : Z),
         INT64_MIN <= n <= INT64_MAX ->
         exists out : timespec,
           UTILS_TimespecAddNanoseconds (Some x) n (Some r)
           = (if int64_t (total_ns x + n) <? 0 then 1 else 0, Some out)
           /\ 0 <= tv_nsec out < 1000000000
           /\ total_ns out = int64_t (total_ns x + n)
           /\ (INT64_MIN <= total_ns x + n <= INT64_MAX ->
               total_ns out = total_ns x + n)).
Proof using LONG_BITS_min.
  split.
  - intros [x |] [r |] n [H | H]; try discriminate; reflexivity.
  - intros x r n Hn.
    rewrite UTILS_TimespecAddNanoseconds_floor by exact Hn.
    eexists. split; [reflexivity |].
    split; [apply floor_normalized |].
    split; [apply floor_total_ns |].
    intros Hfit. rewrite floor_total_ns. apply int64_t_small. exact Hfit.
Qed.

(** X9.  Adding the nanosecond count of a normalized timespec [y] with
    [UTILS_TimespecAddNanoseconds] is adding [y] with [UTILS_TimespecAdd]:
    same status, same result, for every [x] and [pxResult], null or not. *)
Theorem UTILS_TimespecAddNanoseconds_is_Add
    (x pxResult : option timespec) (y : timespec) :
  0 <= tv_nsec y < 1000000000 ->
  INT64_MIN <= total_ns y <= INT64_MAX ->
  UTILS_TimespecAddNanoseconds x (total_ns y) pxResult
  = UTILS_TimespecAdd x (Some y) pxResult.
Proof using LONG_BITS_min.
  intros Hy Hfit.
  destruct x as [x |], pxResult as [r |]; try reflexivity.
  unfold UTILS_TimespecAddNanoseconds. cbn [is_null orb].
  rewrite UTILS_NanosecondsToTimespec_floor by exact Hfit.
  rewrite (floor_of_normalized y Hy). reflexivity.
Qed.

(** X10.  Adding zero nanoseconds to a normalized timespec whose count fits
    [int64_t] writes that timespec back; the status is 1 when it is
    negative and 0 when it is not. *)
Theorem UTILS_TimespecAddNanoseconds_zero (x r : timespec) :
  0 <= tv_nsec x < 1000000000 ->
  INT64_MIN <= total_ns x <= INT64_MAX ->
  UTILS_TimespecAddNanoseconds (Some x) 0 (Some r)
  = (if total_ns x <? 0 then 1 else 0, Some x).
Proof using LONG_BITS_min.
  intros Hx Hfit.
  rewrite UTILS_TimespecAddNanoseconds_floor by (unfold_consts; lia).
  rewrite Z.add_0_r, int64_t_small by exact Hfit.
  rewrite (floor_of_normalized x Hx). reflexivity.
Qed.

(** X11.  Two successive [UTILS_TimespecAddNanoseconds], of [a] and then of
    [b], give the status and the result of one of [a + b], whenever
    [a + b] and the nanosecond counts on the way fit [int64_t]. *)
Theorem UTILS_TimespecAddNanoseconds_twice (x r1 r2 : timespec) (a b : Z) :
  INT64_MIN <= a <= INT64_MAX ->
  INT64_MIN <= b <= INT64_MAX ->
  INT64_MIN <= a + b <= INT64_MAX ->
  INT64_MIN <= total_ns x + a <= INT64_MAX ->
  INT64_MIN <= total_ns x + a + b <= INT64_MAX ->
  exists mid : timespec,
    snd (UTILS_TimespecAddNanoseconds (Some x) a (Some r1)) = Some mid
    /\ UTILS_TimespecAddNanoseconds (Some mid) b (Some r2)
       = UTILS_TimespecAddNanoseconds (Some x) (a + b) (Some r2).
Proof using LONG_BITS_min.
  intros Ha Hb Hab _ _.
  rewrite (UTILS_TimespecAddNanoseconds_floor x r1 a Ha).
  eexists. split; [reflexivity |].
  rewrite !UTILS_TimespecAddNanoseconds_floor by assumption.
  rewrite floor_total_ns, int64_t_add_l, Z.add_assoc. reflexivity.
Qed.

(** X12.  [UTILS_TimespecAdd] is associative: when the nanosecond counts
    of the partial sums and of the whole sum fit [int64_t], adding [z] to
    the sum of [x] and [y] gives the status and the result of adding the sum
    of [y] and [z] to [x]. *)
Theorem UTILS_TimespecAdd_assoc (x y z r1 r2 r3 : timespec) :
  INT64_MIN <= total_ns x + total_ns y <= INT64_MAX ->
  INT64_MIN <= total_ns y + total_ns z <= INT64_MAX ->
  INT64_MIN <= total_ns x + total_ns y + total_ns z <= INT64_MAX ->
  exists xy yz : timespec,
    snd (UTILS_TimespecAdd (Some x) (Some y) (Some r1)) = Some xy
    /\ snd (UTILS_TimespecAdd (Some y) (Some z) (Some r2)) = Some yz
    /\ UTILS_TimespecAdd (Some xy) (Some z) (Some r3)
       = UTILS_TimespecAdd (Some x) (Some yz) (Some r3).
Proof using LONG_BITS_min.
  intros _ _ _.
  rewrite (UTILS_TimespecAdd_floor x y), (UTILS_TimespecAdd_floor y z).
  eexists _, _. split; [reflexivity |]. split; [reflexivity |].
  rewrite !UTILS_TimespecAdd_floor, !floor_total_ns.
  rewrite int64_t_add_l, int64_t_add_r, Z.add_assoc. reflexivity.
Qed.

Lemma UTILS_TimespecSubtract_ge (x y out : timespec) :
  normalized x -> normalized y ->
  UTILS_TimespecCompare (Some x) (Some y) <> -1 ->
  exists d : timespec,
    UTILS_TimespecSubtract (Some x) (Some y) (Some out) = (0, Some d)
    /\ normalized d
    /\ (tv_sec x - tv_sec y <= INT64_MAX ->
        total_ns d = total_ns x - total_ns y).
Proof using LONG_BITS_min.
  intros Hx Hy Hc.
  destruct (Z.eq_dec (UTILS_TimespecCompare (Some x) (Some y)) 0)
    as [Hz | Hnz].
  - rewrite (UTILS_TimespecSubtract_eq x y out Hz).
    apply UTILS_TimespecCompare_eq in Hz. subst y.
    eexists. split; [reflexivity |].
    unfold normalized, total_ns, NANOSECONDS_PER_SECOND. cbn. lia.
  - assert (Hgt : UTILS_TimespecCompare (Some x) (Some y) = 1).
    { rewrite (compare_sgn_total_ns x y Hx Hy) in *.
      pose proof (Z.sgn_spec (total_ns x - total_ns y)). lia. }
    rewrite (UTILS_TimespecSubtract_gt x y out Hx Hy Hgt).
    pose proof (borrow_range x y) as Hb.
    pose proof (difference_nonneg x y Hgt) as Hd.
    eexists. split; [reflexivity |].
    split.
    + unfold normalized, borrow in *. cbn [tv_nsec].
      destruct (Z.ltb_spec (tv_nsec x) (tv_nsec y)); unfold_consts; lia.
    + intros Hfit. unfold total_ns. cbn [tv_sec tv_nsec].
      rewrite time_t_small by (unfold_consts; lia).
      unfold_consts. lia.
Qed.

(** X13.  For normalized [x] and [y] with [x] not below [y] and
    [x.tv_sec - y.tv_sec] representable, [UTILS_TimespecSubtract] returns 0
    and writes a normalized timespec whose nanosecond count is exactly the
    difference of the counts of [x] and [y]. *)
Theorem UTILS_TimespecSubtract_exact (x y out : timespec) :
  0 <= tv_nsec x < 1000000000 ->
  0 <= tv_nsec y < 1000000000 ->
  UTILS_TimespecCompare (Some x) (Some y) <> -1 ->
  tv_sec x - tv_sec y <= INT64_MAX ->
  exists d : timespec,
    UTILS_TimespecSubtract (Some x) (Some y) (Some out) = (0, Some d)
    /\ 0 <= tv_nsec d < 1000000000
    /\ total_ns d = total_ns x - total_ns y.
Proof using LONG_BITS_min.
  intros Hx Hy Hc Hfit.
  destruct (UTILS_TimespecSubtract_ge x y out Hx Hy Hc)
    as (d & Hsub & Hd & Htotal).
  exists d. split; [exact Hsub |].
  split; [exact Hd | exact (Htotal Hfit)].
Qed.

(** X14.  Subtraction followed by addition is the identity: for normalized
    [x] and [y] with [x] not below [y], whose nanosecond counts and their
    difference fit [int64_t], adding [y] to what [UTILS_TimespecSubtract]
    wrote for [x - y] writes [x]. *)
Theorem UTILS_TimespecSubtract_then_Add (x y d0 r0 : timespec) :
  0 <= tv_nsec x < 1000000000 ->
  0 <= tv_nsec y < 1000000000 ->
  UTILS_TimespecCompare (Some x) (Some y) <> -1 ->
  INT64_MIN <= total_ns x <= INT64_MAX ->
  INT64_MIN <= total_ns y <= INT64_MAX ->
  total_ns x - total_ns y <= INT64_MAX ->
  exists d : timespec,
    UTILS_TimespecSubtract (Some x) (Some y) (Some d0) = (0, Some d)
    /\ UTILS_TimespecAdd (Some d) (Some y) (Some r0)
       = (if total_ns x <? 0 then 1 else 0, Some x).
Proof using LONG_BITS_min.
  intros Hx Hy Hc Hfit _ _.
  assert (Hsum : forall d : timespec,
             int64_t (total_ns d + total_ns y) = total_ns x ->
             UTILS_TimespecAdd (Some d) (Some y) (Some r0)
             = (if total_ns x <? 0 then 1 else 0, Some x)).
  { intros d Hd. rewrite UTILS_TimespecAdd_floor, Hd.
    rewrite (floor_of_normalized x Hx). reflexivity. }
  destruct (Z.eq_dec (UTILS_TimespecCompare (Some x) (Some y)) 0)
    as [Hz | Hnz].
  - rewrite (UTILS_TimespecSubtract_eq x y d0 Hz).
    apply UTILS_TimespecCompare_eq in Hz. subst y.
    eexists. split; [reflexivity |].
    apply Hsum. apply int64_t_small. exact Hfit.
  - assert (Hgt : UTILS_TimespecCompare (Some x) (Some y) = 1).
    { rewrite (compare_sgn_total_ns x y Hx Hy) in *.
      pose proof (Z.sgn_spec (total_ns x - total_ns y)). lia. }
    rewrite (UTILS_TimespecSubtract_gt x y d0 Hx Hy Hgt).
    eexists. split; [reflexivity |].
    apply Hsum.
    unfold total_ns at 1. cbn [tv_sec tv_nsec].
    rewrite <- !Z.add_assoc, <- int64_t_add_l.
    change (time_t (tv_sec x - tv_sec y - borrow x y))
      with (int64_t (tv_sec x - tv_sec y - borrow x y)).
    rewrite int64_t_scale, int64_t_add_l.
    etransitivity; [| apply int64_t_small; exact Hfit].
    f_equal. unfold total_ns. lia.
Qed.

(** X15.  [UTILS_NanosecondsToTimespec] preserves order: for two counts
    within [int64_t], comparing the timespecs it writes gives the sign of
    the difference of the counts. *)
Theorem UTILS_NanosecondsToTimespec_order (n m : Z) (d d' : timespec) :
  INT64_MIN <= n <= INT64_MAX ->
  INT64_MIN <= m <= INT64_MAX ->
  UTILS_TimespecCompare (Some (UTILS_NanosecondsToTimespec n d))
                        (Some (UTILS_NanosecondsToTimespec m d'))
  = Z.sgn (n - m).
Proof using LONG_BITS_min.
  intros Hn Hm.
  rewrite !UTILS_NanosecondsToTimespec_floor by assumption.
  rewrite compare_sgn_total_ns by apply floor_normalized.
  rewrite !floor_total_ns. reflexivity.
Qed.

(** ** Conversion to ticks under a kernel configuration *)

(** [TickType_t] is an unsigned type no wider than [uint64_t]. *)
Hypothesis TICK_BITS_range : 0 < TICK_BITS <= 64.
(** At least one tick per second, and a tick of at least a nanosecond. *)
Hypothesis configTICK_RATE_HZ_pos : 0 < configTICK_RATE_HZ.
Hypothesis NANOSECONDS_PER_TICK_range :
  0 < NANOSECONDS_PER_TICK <= NANOSECONDS_PER_SECOND.

Lemma long_NANOSECONDS_PER_TICK :
  long NANOSECONDS_PER_TICK = NANOSECONDS_PER_TICK.
Proof using LONG_BITS_min NANOSECONDS_PER_TICK_range.
  apply long_small. unfold NANOSECONDS_PER_SECOND in *. lia.
Qed.

Lemma TickType_t_of_uint64_t (z : Z) :
  TickType_t (uint64_t z) = z mod 2 ^ TICK_BITS.
Proof using TICK_BITS_range.
  unfold TickType_t, uint64_t, wrap_unsigned.
  apply Z.mod_mod_divide.
  exists (2 ^ (64 - TICK_BITS)).
  rewrite <- Z.pow_add_r by lia. f_equal. lia.
Qed.

Lemma UTILS_TimespecToTicks_normalized (ts : timespec) (old : Z) :
  normalized ts ->
  UTILS_TimespecToTicks (Some ts) (Some old)
  = Some (0, Some ((tv_sec ts * configTICK_RATE_HZ
                    + ceil_div (tv_nsec ts) NANOSECONDS_PER_TICK)
                   mod 2 ^ TICK_BITS)).
Proof using LONG_BITS_min TICK_BITS_range NANOSECONDS_PER_TICK_range.
  intros Hn. unfold UTILS_TimespecToTicks.
  rewrite (UTILS_ValidateTimespec_normalized ts Hn).
  cbn [is_null orb negb andb eqb].
  change (0 =? 0) with true. cbv iota.
  rewrite long_NANOSECONDS_PER_TICK.
  destruct (Z.eqb_spec NANOSECONDS_PER_TICK 0) as [Hz | _]; [lia |].
  unfold normalized in Hn.
  rewrite (long_small (c_bool _)) by (destruct (negb _); cbn; lia).
  rewrite quot_round_up by lia.
  pose proof (ceil_div_range (tv_nsec ts) NANOSECONDS_PER_TICK) as Hr.
  rewrite long_small by (unfold_consts; lia).
  rewrite uint64_t_mul_add, TickType_t_of_uint64_t. reflexivity.
Qed.

(** C1, as the code has it.  For a normalized timespec with
    [tv_sec >= 0] and a result pointer that is not null,
    [UTILS_TimespecToTicks] returns 0 and writes
    [tv_sec * configTICK_RATE_HZ + ceil (tv_nsec / NANOSECONDS_PER_TICK)]
    reduced modulo [2 ^ TICK_BITS], the range of [TickType_t]: that very
    count whenever it is below [2 ^ TICK_BITS].  The nanosecond term is the
    least number of ticks covering [tv_nsec], so a remainder costs one more
    tick, and [{0, 1}] gives 1 tick. *)
Theorem UTILS_TimespecToTicks_modular (ts : timespec) (old : Z) :
  0 <= tv_nsec ts < 1000000000 ->
  0 <= tv_sec ts ->
  let whole := ceil_div (tv_nsec ts) NANOSECONDS_PER_TICK in
  let ticks := tv_sec ts * configTICK_RATE_HZ + whole in
  UTILS_TimespecToTicks (Some ts) (Some old)
  = Some (0, Some (ticks mod 2 ^ TICK_BITS))
  /\ (ticks < 2 ^ TICK_BITS ->
      UTILS_TimespecToTicks (Some ts) (Some old) = Some (0, Some ticks))
  /\ (whole - 1) * NANOSECONDS_PER_TICK < tv_nsec ts
                                        <= whole * NANOSECONDS_PER_TICK
  /\ (1 < NANOSECONDS_PER_TICK ->
      UTILS_TimespecToTicks (Some {| tv_sec := 0; tv_nsec := 1 |})
                            (Some old) = Some (0, Some 1)).
Proof using LONG_BITS_min TICK_BITS_range NANOSECONDS_PER_TICK_range
  configTICK_RATE_HZ_pos.
  intros Hn Hs whole ticks.
  pose proof (ceil_div_range (tv_nsec ts) NANOSECONDS_PER_TICK) as Hr.
  fold whole in Hr.
  split; [apply UTILS_TimespecToTicks_normalized; exact Hn |].
  split; [| split].
  - intros Hfit.
    rewrite UTILS_TimespecToTicks_normalized by exact Hn.
    fold whole. fold ticks.
    rewrite Z.mod_small; [reflexivity |].
    subst ticks. nia.
  - apply ceil_div_bounds. lia.
  - intros Hnpt.
    rewrite UTILS_TimespecToTicks_normalized
      by (unfold normalized, NANOSECONDS_PER_SECOND; cbn; lia).
    cbn [tv_sec tv_nsec].
    assert (Hone : ceil_div 1 NANOSECONDS_PER_TICK = 1).
    { pose proof (ceil_div_bounds 1 NANOSECONDS_PER_TICK). nia. }
    rewrite Hone. cbn [Z.mul Z.add].
    rewrite Z.mod_small; [reflexivity |].
    split; [lia |].
    apply Z.pow_gt_1; lia.
Qed.

(** ** Ticks never fall short *)

(** The tick count of a normalized timespec brackets its duration. *)
Lemma ticks_bracket (ts : timespec) :
  normalized ts -> 0 <= tv_sec ts ->
  NANOSECONDS_PER_TICK * configTICK_RATE_HZ <= NANOSECONDS_PER_SECOND ->
  let t := tv_sec ts * configTICK_RATE_HZ
           + ceil_div (tv_nsec ts) NANOSECONDS_PER_TICK in
  0 <= t
  /\ total_ns ts * configTICK_RATE_HZ <= t * NANOSECONDS_PER_SECOND
  /\ (t - 1) * NANOSECONDS_PER_TICK < total_ns ts.
Proof using configTICK_RATE_HZ_pos NANOSECONDS_PER_TICK_range.
  clear LONG_BITS_min TICK_BITS_range.
  intros Hn Hs Hrate t.
  pose proof (ceil_div_bounds (tv_nsec ts) NANOSECONDS_PER_TICK
                (proj1 NANOSECONDS_PER_TICK_range)) as Hc.
  pose proof (ceil_div_range (tv_nsec ts) NANOSECONDS_PER_TICK
                (proj1 Hn) (proj1 NANOSECONDS_PER_TICK_range)) as Hr.
  subst t. unfold total_ns.
  set (c := ceil_div (tv_nsec ts) NANOSECONDS_PER_TICK) in *.
  split; [nia |]. split.
  - assert (c * (NANOSECONDS_PER_TICK * configTICK_RATE_HZ)
            <= c * NANOSECONDS_PER_SECOND) by nia.
    nia.
  - assert (tv_sec ts * (NANOSECONDS_PER_TICK * configTICK_RATE_HZ)
            <= tv_sec ts * NANOSECONDS_PER_SECOND) by nia.
    nia.
Qed.

(** X16.  The conversion never falls short.  When a tick is no longer than
    [NANOSECONDS_PER_TICK * configTICK_RATE_HZ <= 1e9] says and the count
    fits [TickType_t], the [t] ticks written for a normalized timespec with
    [tv_sec >= 0] last at least as long as the timespec,
    [total_ns * configTICK_RATE_HZ <= t * 1e9], while [t - 1] ticks of
    [NANOSECONDS_PER_TICK] are less than it. *)
Theorem UTILS_TimespecToTicks_covers (ts : timespec) (old : Z) :
  0 <= tv_nsec ts < 1000000000 ->
  0 <= tv_sec ts ->
  NANOSECONDS_PER_TICK * configTICK_RATE_HZ <= 1000000000 ->
  tv_sec ts * configTICK_RATE_HZ
  + ceil_div (tv_nsec ts) NANOSECONDS_PER_TICK < 2 ^ TICK_BITS ->
  exists t : Z,
    UTILS_TimespecToTicks (Some ts) (Some old) = Some (0, Some t)
    /\ total_ns ts * configTICK_RATE_HZ <= t * 1000000000
    /\ (t - 1) * NANOSECONDS_PER_TICK < total_ns ts.
Proof using LONG_BITS_min TICK_BITS_range NANOSECONDS_PER_TICK_range
  configTICK_RATE_HZ_pos.
  intros Hn Hs Hrate Hfit.
  destruct (ticks_bracket ts Hn Hs Hrate) as (H0 & Hlo & Hhi).
  rewrite (UTILS_TimespecToTicks_normalized ts old Hn).
  rewrite Z.mod_small by lia.
  eexists. split; [reflexivity |]. split; assumption.
Qed.

(** X17.  When [configTICK_RATE_HZ] ticks of [NANOSECONDS_PER_TICK] make up
    a second exactly and the count fits [TickType_t], the ticks written for
    a normalized timespec with [tv_sec >= 0] are its whole duration in
    nanoseconds divided by [NANOSECONDS_PER_TICK], rounded up. *)
Theorem UTILS_TimespecToTicks_ceiling (ts : timespec) (old : Z) :
  0 <= tv_nsec ts < 1000000000 ->
  0 <= tv_sec ts ->
  NANOSECONDS_PER_TICK * configTICK_RATE_HZ = 1000000000 ->
  tv_sec ts * configTICK_RATE_HZ
  + ceil_div (tv_nsec ts) NANOSECONDS_PER_TICK < 2 ^ TICK_BITS ->
  UTILS_TimespecToTicks (Some ts) (Some old)
  = Some (0, Some (ceil_div (total_ns ts) NANOSECONDS_PER_TICK)).
Proof using LONG_BITS_min TICK_BITS_range NANOSECONDS_PER_TICK_range
  configTICK_RATE_HZ_pos.
  intros Hn Hs Hrate Hfit.
  assert (Hle : NANOSECONDS_PER_TICK * configTICK_RATE_HZ
                <= NANOSECONDS_PER_SECOND)
    by (unfold NANOSECONDS_PER_SECOND; lia).
  destruct (ticks_bracket ts Hn Hs Hle) as (H0 & Hlo & Hhi).
  rewrite (UTILS_TimespecToTicks_normalized ts old Hn).
  rewrite Z.mod_small by lia.
  do 3 f_equal. apply ceil_div_unique; [lia |].
  split; [exact Hhi |].
  unfold NANOSECONDS_PER_SECOND in Hlo. nia.
Qed.

(** X18.  Under the same configuration the conversion is monotone: of two
    normalized timespecs with [tv_sec >= 0] whose counts fit [TickType_t],
    the one that does not compare above the other is not given more
    ticks. *)
Theorem UTILS_TimespecToTicks_monotone (a b : timespec) (old ta tb : Z) :
  0 <= tv_nsec a < 1000000000 ->
  0 <= tv_nsec b < 1000000000 ->
  0 <= tv_sec a ->
  0 <= tv_sec b ->
  NANOSECONDS_PER_TICK * configTICK_RATE_HZ = 1000000000 ->
  tv_sec a * configTICK_RATE_HZ
  + ceil_div (tv_nsec a) NANOSECONDS_PER_TICK < 2 ^ TICK_BITS ->
  tv_sec b * configTICK_RATE_HZ
  + ceil_div (tv_nsec b) NANOSECONDS_PER_TICK < 2 ^ TICK_BITS ->
  UTILS_TimespecCompare (Some a) (Some b) <> 1 ->
  UTILS_TimespecToTicks (Some a) (Some old) = Some (0, Some ta) ->
  UTILS_TimespecToTicks (Some b) (Some old) = Some (0, Some tb) ->
  ta <= tb.
Proof using LONG_BITS_min TICK_BITS_range NANOSECONDS_PER_TICK_range
  configTICK_RATE_HZ_pos.
  intros Ha Hb Hsa Hsb Hrate Hfa Hfb Hc Hta Htb.
  assert (Hle : NANOSECONDS_PER_TICK * configTICK_RATE_HZ
                <= NANOSECONDS_PER_SECOND)
    by (unfold NANOSECONDS_PER_SECOND; lia).
  destruct (ticks_bracket a Ha Hsa Hle) as (Ha0 & Halo & Hahi).
  destruct (ticks_bracket b Hb Hsb Hle) as (Hb0 & Hblo & Hbhi).
  rewrite (UTILS_TimespecToTicks_normalized a old Ha) in Hta.
  rewrite (UTILS_TimespecToTicks_normalized b old Hb) in Htb.
  rewrite Z.mod_small in Hta, Htb by lia.
  injection Hta as <-. injection Htb as <-.
  assert (Hab : total_ns a <= total_ns b).
  { rewrite (compare_sgn_total_ns a b Ha Hb) in Hc.
    pose proof (Z.sgn_spec (total_ns a - total_ns b)). lia. }
  unfold NANOSECONDS_PER_SECOND in *. nia.
Qed.

(** ** Status codes *)

(** Error codes are nonzero and distinct. *)
Hypothesis EINVAL_nonzero : EINVAL <> 0.
Hypothesis ETIMEDOUT_nonzero : ETIMEDOUT <> 0.
Hypothesis EINVAL_ETIMEDOUT : EINVAL <> ETIMEDOUT.

Lemma UTILS_TimespecToTicks_invalid
    (pxTimespec : option timespec) (pxResult : option Z) :
  pxTimespec = None \/ pxResult = None
  \/ UTILS_ValidateTimespec pxTimespec = false ->
  UTILS_TimespecToTicks pxTimespec pxResult = Some (EINVAL, pxResult).
Proof using EINVAL_nonzero.
  intros H. unfold UTILS_TimespecToTicks.
  assert (Hst : (if is_null pxTimespec || is_null pxResult then EINVAL
                 else if negb (is_null pxTimespec)
                         && eqb (UTILS_ValidateTimespec pxTimespec) false
                      then EINVAL else 0) = EINVAL).
  { destruct pxTimespec as [ts |], pxResult as [old |];
      cbn [is_null orb negb andb]; try reflexivity.
    destruct H as [H | [H | H]]; try discriminate.
    rewrite H. reflexivity. }
  rewrite Hst.
  destruct (Z.eqb_spec EINVAL 0) as [Hz | _]; [contradiction |].
  reflexivity.
Qed.

(** The conversion either succeeds and writes, or fails with [EINVAL] and
    leaves the result alone. *)
Lemma UTILS_TimespecToTicks_outcome
    (pxTimespec : option timespec) (pxResult : option Z) :
  (exists ticks : Z,
      UTILS_TimespecToTicks pxTimespec pxResult = Some (0, Some ticks))
  \/ UTILS_TimespecToTicks pxTimespec pxResult = Some (EINVAL, pxResult).
Proof using LONG_BITS_min TICK_BITS_range NANOSECONDS_PER_TICK_range
  EINVAL_nonzero.
  destruct pxTimespec as [ts |];
    [| right; apply UTILS_TimespecToTicks_invalid; auto].
  destruct pxResult as [old |];
    [| right; apply UTILS_TimespecToTicks_invalid; auto].
  destruct (UTILS_ValidateTimespec (Some ts)) eqn:Hv.
  - left. eexists.
    apply UTILS_TimespecToTicks_normalized, UTILS_ValidateTimespec_true.
    exact Hv.
  - right. apply UTILS_TimespecToTicks_invalid. auto.
Qed.

(** ** Absolute time to tick delta *)

Lemma UTILS_AbsoluteTimespecToDeltaTicks_null
    (a c : option timespec) (r : option Z) :
  a = None \/ c = None \/ r = None ->
  UTILS_AbsoluteTimespecToDeltaTicks a c r = Some (EINVAL, r).
Proof using EINVAL_nonzero.
  intros H. unfold UTILS_AbsoluteTimespecToDeltaTicks.
  assert (Hn : is_null a || is_null c || is_null r = true)
    by (destruct a, c, r, H as [H | [H | H]];
        try discriminate; reflexivity).
  rewrite Hn.
  destruct (Z.eqb_spec EINVAL 0) as [Hz | _]; [contradiction |].
  destruct (Z.eqb_spec EINVAL 0) as [Hz | _]; [contradiction |].
  reflexivity.
Qed.

(** With no pointer null the function follows the status of the
    subtraction into the local [xDifference]. *)
Lemma UTILS_AbsoluteTimespecToDeltaTicks_eq
    (a c : timespec) (r : Z) (st : Z) (d : timespec) :
  UTILS_TimespecSubtract (Some a) (Some c)
                         (Some {| tv_sec := 0; tv_nsec := 0 |})
  = (st, Some d) ->
  UTILS_AbsoluteTimespecToDeltaTicks (Some a) (Some c) (Some r)
  = if st =? 1 then Some (ETIMEDOUT, Some r)
    else if st =? -1 then Some (EINVAL, Some r)
    else if st =? 0 then UTILS_TimespecToTicks (Some d) (Some r)
    else Some (st, Some r).
Proof using EINVAL_nonzero ETIMEDOUT_nonzero.
  intros Hsub. unfold UTILS_AbsoluteTimespecToDeltaTicks.
  cbn [is_null orb]. change (0 =? 0) with true. cbv iota.
  rewrite Hsub.
  destruct (st =? 1).
  - destruct (Z.eqb_spec ETIMEDOUT 0); [contradiction | reflexivity].
  - destruct (st =? -1).
    + destruct (Z.eqb_spec EINVAL 0); [contradiction | reflexivity].
    + reflexivity.
Qed.

(** C2.  [UTILS_AbsoluteTimespecToDeltaTicks] returns [EINVAL] when one of
    its pointers is null or the subtraction reports -1; it returns
    [ETIMEDOUT] exactly when the subtraction reports 1, as for target
    [{5, 0}] and current time [{10, 0}]; otherwise its status and the tick
    count it writes are those of [UTILS_TimespecToTicks] on the
    difference. *)
Theorem UTILS_AbsoluteTimespecToDeltaTicks_status :
  (forall (a c : option timespec) (r : option Z),
      a = None \/ c = None \/ r = None ->
      UTILS_AbsoluteTimespecToDeltaTicks a c r = Some (EINVAL, r))
  /\ (forall (a c : timespec) (r : Z),
         fst (UTILS_TimespecSubtract
                (Some a) (Some c) (Some {| tv_sec := 0; tv_nsec := 0 |}))
         = -1 ->
         UTILS_AbsoluteTimespecToDeltaTicks (Some a) (Some c) (Some r)
         = Some (EINVAL, Some r))
  /\ (forall (a c : option timespec) (r : option Z),
         (exists out,
             UTILS_AbsoluteTimespecToDeltaTicks a c r
             = Some (ETIMEDOUT, out))
         <-> r <> None
             /\ fst (UTILS_TimespecSubtract
                       a c (Some {| tv_sec := 0; tv_nsec := 0 |})) = 1)
  /\ (forall r : Z,
         UTILS_AbsoluteTimespecToDeltaTicks
           (Some {| tv_sec := 5; tv_nsec := 0 |})
           (Some {| tv_sec := 10; tv_nsec := 0 |}) (Some r)
         = Some (ETIMEDOUT, Some r))
  /\ (forall (a c : timespec) (r : Z),
         let sub :=
           UTILS_TimespecSubtract
             (Some a) (Some c) (Some {| tv_sec := 0; tv_nsec := 0 |}) in
         fst sub <> -1 -> fst sub <> 1 ->
         exists d : timespec,
           snd sub = Some d
           /\ UTILS_AbsoluteTimespecToDeltaTicks
                (Some a) (Some c) (Some r)
              = UTILS_TimespecToTicks (Some d) (Some r)).
Proof using LONG_BITS_min TICK_BITS_range NANOSECONDS_PER_TICK_range
  EINVAL_nonzero ETIMEDOUT_nonzero EINVAL_ETIMEDOUT.
  split; [exact UTILS_AbsoluteTimespecToDeltaTicks_null |].
  split; [| split; [| split]].
  - intros a c r Hst.
    destruct (UTILS_TimespecSubtract_status
                a c {| tv_sec := 0; tv_nsec := 0 |})
      as (st & d & Hsub & _).
    rewrite Hsub in Hst. cbn [fst] in Hst. subst st.
    rewrite (UTILS_AbsoluteTimespecToDeltaTicks_eq a c r _ _ Hsub).
    reflexivity.
  - intros a c r. split.
    + intros [out Hd].
      destruct a as [a |], c as [c |], r as [r |];
        try (rewrite UTILS_AbsoluteTimespecToDeltaTicks_null in Hd by auto;
             congruence).
      split; [discriminate |].
      destruct (UTILS_TimespecSubtract_status
                  a c {| tv_sec := 0; tv_nsec := 0 |})
        as (st & d & Hsub & Hcases).
      rewrite (UTILS_AbsoluteTimespecToDeltaTicks_eq a c r _ _ Hsub) in Hd.
      rewrite Hsub. cbn [fst].
      destruct Hcases as [-> | [-> | ->]]; [| | reflexivity].
      * cbn in Hd. congruence.
      * cbn in Hd.
        destruct (UTILS_TimespecToTicks_outcome (Some d) (Some r))
          as [[ticks Ht] | Ht]; rewrite Ht in Hd; congruence.
    + intros [Hr Hst].
      destruct a as [a |], c as [c |], r as [r |];
        try contradiction;
        try (rewrite UTILS_TimespecSubtract_null in Hst by auto;
             discriminate).
      destruct (UTILS_TimespecSubtract_status
                  a c {| tv_sec := 0; tv_nsec := 0 |})
        as (st & d & Hsub & _).
      rewrite Hsub in Hst. cbn [fst] in Hst. subst st.
      rewrite (UTILS_AbsoluteTimespecToDeltaTicks_eq a c r _ _ Hsub).
      eexists. reflexivity.
  - intros r.
    rewrite (UTILS_AbsoluteTimespecToDeltaTicks_eq
               _ _ r 1 {| tv_sec := 0; tv_nsec := 0 |}); reflexivity.
  - intros a c r sub Hne Hne'. subst sub.
    destruct (UTILS_TimespecSubtract_status
                a c {| tv_sec := 0; tv_nsec := 0 |})
      as (st & d & Hsub & Hcases).
    rewrite Hsub in *. cbn [fst snd] in *.
    exists d. split; [reflexivity |].
    rewrite (UTILS_AbsoluteTimespecToDeltaTicks_eq a c r _ _ Hsub).
    destruct Hcases as [-> | [-> | ->]]; try contradiction.
    reflexivity.
Qed.

(** C10.  Both tick conversions return, and whenever the status they
    return is not 0 (it is then [EINVAL] or [ETIMEDOUT]) the caller's
    [*pxResult] holds the value it held before the call: the tick count is
    written only together with status 0. *)
Theorem tick_conversion_failure_leaves_result :
  (forall (pxTimespec : option timespec) (pxResult : option Z),
      exists (st : Z) (out : option Z),
        UTILS_TimespecToTicks pxTimespec pxResult = Some (st, out)
        /\ (st = 0 \/ st = EINVAL)
        /\ (st <> 0 -> out = pxResult))
  /\ (forall (a c : option timespec) (pxResult : option Z),
         exists (st : Z) (out : option Z),
           UTILS_AbsoluteTimespecToDeltaTicks a c pxResult
           = Some (st, out)
           /\ (st = 0 \/ st = EINVAL \/ st = ETIMEDOUT)
           /\ (st <> 0 -> out = pxResult)).
Proof using LONG_BITS_min TICK_BITS_range NANOSECONDS_PER_TICK_range
  EINVAL_nonzero ETIMEDOUT_nonzero.
  assert (Hticks :
            forall (pxTimespec : option timespec) (pxResult : option Z),
            exists (st : Z) (out : option Z),
              UTILS_TimespecToTicks pxTimespec pxResult = Some (st, out)
              /\ (st = 0 \/ st = EINVAL)
              /\ (st <> 0 -> out = pxResult)).
  { intros pxTimespec pxResult.
    destruct (UTILS_TimespecToTicks_outcome pxTimespec pxResult)
      as [[ticks Ht] | Ht]; rewrite Ht.
    - exists 0, (Some ticks). repeat split; auto. contradiction.
    - exists EINVAL, pxResult. repeat split; auto. }
  split; [exact Hticks |].
  intros a c pxResult.
  destruct a as [a |], c as [c |], pxResult as [r |];
    try (rewrite UTILS_AbsoluteTimespecToDeltaTicks_null by auto;
         exists EINVAL; eexists; repeat split; auto).
  destruct (UTILS_TimespecSubtract_status
              a c {| tv_sec := 0; tv_nsec := 0 |})
    as (st & d & Hsub & Hcases).
  rewrite (UTILS_AbsoluteTimespecToDeltaTicks_eq a c r _ _ Hsub).
  destruct Hcases as [-> | [-> | ->]]; cbn.
  - exists EINVAL, (Some r). repeat split; auto.
  - destruct (Hticks (Some d) (Some r)) as (st & out & Ht & Hst & Hout).
    exists st, out. repeat split; auto.
    destruct Hst; auto.
  - exists ETIMEDOUT, (Some r). repeat split; auto.
Qed.

(** ** Deadlines *)

(** X19.  [UTILS_TimespecToTicks] returns 0 and writes exactly when neither
    pointer is null and [0 <= tv_nsec < 1000000000]; in every other case it
    returns [EINVAL] and leaves [*pxResult] alone. *)
Theorem UTILS_TimespecToTicks_status
    (pxTimespec : option timespec) (pxResult : option Z) :
  ((exists t : Z,
       UTILS_TimespecToTicks pxTimespec pxResult = Some (0, Some t))
   <-> exists (ts : timespec) (old : Z),
        pxTimespec = Some ts /\ pxResult = Some old
        /\ 0 <= tv_nsec ts < 1000000000)
  /\ ((forall t : Z,
          UTILS_TimespecToTicks pxTimespec pxResult <> Some (0, Some t)) ->
      UTILS_TimespecToTicks pxTimespec pxResult = Some (EINVAL, pxResult)).
Proof using LONG_BITS_min TICK_BITS_range NANOSECONDS_PER_TICK_range
  EINVAL_nonzero.
  split.
  - split.
    + intros [t Ht].
      destruct pxTimespec as [ts |], pxResult as [old |];
        try (rewrite UTILS_TimespecToTicks_invalid in Ht by auto;
             congruence).
      exists ts, old. split; [reflexivity |]. split; [reflexivity |].
      destruct (UTILS_ValidateTimespec (Some ts)) eqn:Hv.
      * exact (UTILS_ValidateTimespec_true ts Hv).
      * rewrite UTILS_TimespecToTicks_invalid in Ht by auto. congruence.
    + intros (ts & old & -> & -> & Hn).
      eexists. apply UTILS_TimespecToTicks_normalized. exact Hn.
  - intros Hno.
    destruct (UTILS_TimespecToTicks_outcome pxTimespec pxResult)
      as [[t Ht] | Ht]; [| exact Ht].
    elim (Hno t Ht).
Qed.

(** With no pointer null and normalized times the status follows the
    comparison, and the ticks are those of the difference. *)
Lemma UTILS_AbsoluteTimespecToDeltaTicks_ge (a c : timespec) (old : Z) :
  normalized a -> normalized c ->
  UTILS_TimespecCompare (Some a) (Some c) <> -1 ->
  exists d : timespec,
    normalized d
    /\ (tv_sec a - tv_sec c <= INT64_MAX ->
        total_ns d = total_ns a - total_ns c)
    /\ UTILS_AbsoluteTimespecToDeltaTicks (Some a) (Some c) (Some old)
       = Some (0, Some ((tv_sec d * configTICK_RATE_HZ
                         + ceil_div (tv_nsec d) NANOSECONDS_PER_TICK)
                        mod 2 ^ TICK_BITS)).
Proof using LONG_BITS_min TICK_BITS_range NANOSECONDS_PER_TICK_range
  EINVAL_nonzero ETIMEDOUT_nonzero.
  intros Ha Hc Hcmp.
  destruct (UTILS_TimespecSubtract_ge a c zero_timespec Ha Hc Hcmp)
    as (d & Hsub & Hd & Htotal).
  exists d. split; [exact Hd |]. split; [exact Htotal |].
  rewrite (UTILS_AbsoluteTimespecToDeltaTicks_eq a c old 0 d Hsub).
  cbn [Z.eqb]. apply UTILS_TimespecToTicks_normalized. exact Hd.
Qed.

(** X20.  For normalized times and no null pointer,
    [UTILS_AbsoluteTimespecToDeltaTicks] never returns [EINVAL]: it returns
    [ETIMEDOUT], writing nothing, when the target's nanosecond count is
    below the current time's, and it returns 0 and writes a tick count in
    every other case. *)
Theorem UTILS_AbsoluteTimespecToDeltaTicks_normalized
    (a c : timespec) (old : Z) :
  0 <= tv_nsec a < 1000000000 ->
  0 <= tv_nsec c < 1000000000 ->
  (total_ns a < total_ns c ->
   UTILS_AbsoluteTimespecToDeltaTicks (Some a) (Some c) (Some old)
   = Some (ETIMEDOUT, Some old))
  /\ (total_ns c <= total_ns a ->
      exists t : Z,
        UTILS_AbsoluteTimespecToDeltaTicks (Some a) (Some c) (Some old)
        = Some (0, Some t)).
Proof using LONG_BITS_min TICK_BITS_range NANOSECONDS_PER_TICK_range
  EINVAL_nonzero ETIMEDOUT_nonzero.
  intros Ha Hc.
  pose proof (compare_sgn_total_ns a c Ha Hc) as Hsgn.
  pose proof (Z.sgn_spec (total_ns a - total_ns c)) as Hspec.
  split.
  - intros Hlt.
    assert (Hcmp : UTILS_TimespecCompare (Some a) (Some c) = -1) by lia.
    rewrite (UTILS_AbsoluteTimespecToDeltaTicks_eq
               a c old 1 zero_timespec
               (UTILS_TimespecSubtract_lt a c zero_timespec Hcmp)).
    reflexivity.
  - intros Hge.
    assert (Hcmp : UTILS_TimespecCompare (Some a) (Some c) <> -1) by lia.
    destruct (UTILS_AbsoluteTimespecToDeltaTicks_ge a c old Ha Hc Hcmp)
      as (d & _ & _ & Hd).
    eexists. exact Hd.
Qed.

(** X21.  A target equal to the current time is not timed out: whatever the
    timespec, normalized or not, the function returns 0 and writes 0
    ticks. *)
Theorem UTILS_AbsoluteTimespecToDeltaTicks_now (a : timespec) (old : Z) :
  UTILS_AbsoluteTimespecToDeltaTicks (Some a) (Some a) (Some old)
  = Some (0, Some 0).
Proof using LONG_BITS_min TICK_BITS_range NANOSECONDS_PER_TICK_range
  EINVAL_nonzero ETIMEDOUT_nonzero.
  assert (Hcmp : UTILS_TimespecCompare (Some a) (Some a) = 0)
    by (apply UTILS_TimespecCompare_eq; reflexivity).
  rewrite (UTILS_AbsoluteTimespecToDeltaTicks_eq
             a a old 0 zero_timespec
             (UTILS_TimespecSubtract_eq a a zero_timespec Hcmp)).
  cbn [Z.eqb].
  rewrite UTILS_TimespecToTicks_normalized
    by (unfold normalized, NANOSECONDS_PER_SECOND; cbn; lia).
  cbn [zero_timespec tv_sec tv_nsec].
  assert (Hz : ceil_div 0 NANOSECONDS_PER_TICK = 0)
    by (unfold ceil_div; cbn [Z.opp]; rewrite Zdiv_0_l; reflexivity).
  rewrite Hz, Z.mul_0_l, Z.add_0_l.
  rewrite Z.mod_small; [reflexivity |].
  split; [lia |]. apply Z.pow_pos_nonneg; lia.
Qed.

(** X22.  The wait computed for a deadline never falls short.  For
    normalized times with the target [delta >= 0] nanoseconds after the
    current time and [tv_sec] difference representable, when
    [NANOSECONDS_PER_TICK * configTICK_RATE_HZ <= 1e9] and the count fits
    [TickType_t], the [t] ticks written satisfy
    [delta * configTICK_RATE_HZ <= t * 1e9], while [t - 1] ticks of
    [NANOSECONDS_PER_TICK] are less than [delta]. *)
Theorem UTILS_AbsoluteTimespecToDeltaTicks_covers
    (a c : timespec) (old : Z) :
  0 <= tv_nsec a < 1000000000 ->
  0 <= tv_nsec c < 1000000000 ->
  total_ns c <= total_ns a ->
  tv_sec a - tv_sec c <= INT64_MAX ->
  NANOSECONDS_PER_TICK * configTICK_RATE_HZ <= 1000000000 ->
  (total_ns a - total_ns c) / 1000000000 * configTICK_RATE_HZ
  + ceil_div ((total_ns a - total_ns c) mod 1000000000)
             NANOSECONDS_PER_TICK < 2 ^ TICK_BITS ->
  exists t : Z,
    UTILS_AbsoluteTimespecToDeltaTicks (Some a) (Some c) (Some old)
    = Some (0, Some t)
    /\ (total_ns a - total_ns c) * configTICK_RATE_HZ <= t * 1000000000
    /\ (t - 1) * NANOSECONDS_PER_TICK < total_ns a - total_ns c.
Proof using LONG_BITS_min TICK_BITS_range NANOSECONDS_PER_TICK_range
  configTICK_RATE_HZ_pos EINVAL_nonzero ETIMEDOUT_nonzero.
  intros Ha Hc Hge Hsec Hrate Hfit.
  assert (Hcmp : UTILS_TimespecCompare (Some a) (Some c) <> -1).
  { rewrite (compare_sgn_total_ns a c Ha Hc).
    pose proof (Z.sgn_spec (total_ns a - total_ns c)). lia. }
  destruct (UTILS_AbsoluteTimespecToDeltaTicks_ge a c old Ha Hc Hcmp)
    as (d & Hd & Htotal & Hticks).
  specialize (Htotal Hsec).
  assert (Hdeq : d = {| tv_sec := (total_ns a - total_ns c)
                                  / NANOSECONDS_PER_SECOND;
                        tv_nsec := (total_ns a - total_ns c)
                                   mod NANOSECONDS_PER_SECOND |}).
  { apply normalized_total_ns_inj.
    - exact Hd.
    - apply floor_normalized.
    - rewrite floor_total_ns. exact Htotal. }
  assert (Hs : 0 <= tv_sec d).
  { rewrite Hdeq. cbn [tv_sec]. apply Z.div_pos;
      [lia | unfold NANOSECONDS_PER_SECOND; lia]. }
  destruct (ticks_bracket d Hd Hs Hrate) as (H0 & Hlo & Hhi).
  rewrite Htotal in Hlo, Hhi.
  rewrite Hticks, Z.mod_small.
  - eexists. split; [reflexivity |]. split; assumption.
  - split; [exact H0 |]. rewrite Hdeq. exact Hfit.
Qed.

End Utils.

(** * A concrete target

    A 32-bit target with 32-bit ticks at 1 kHz, and the error codes of
    [FreeRTOS_POSIX/errno.h]: the theorems above at concrete arguments, and
    the inputs at which stronger statements fail. *)

(** The concrete cases of the specification. *)
Example ticks_of_one_second :
  UTILS_TimespecToTicks 32 32 1000 1000000 22
    (Some {| tv_sec := 1; tv_nsec := 0 |}) (Some 0) = Some (0, Some 1000).
Proof. reflexivity. Qed.

Example ticks_of_one_nanosecond :
  UTILS_TimespecToTicks 32 32 1000 1000000 22
    (Some {| tv_sec := 0; tv_nsec := 1 |}) (Some 0) = Some (0, Some 1).
Proof. reflexivity. Qed.

Example delta_of_elapsed_deadline :
  UTILS_AbsoluteTimespecToDeltaTicks 32 32 1000 1000000 22 116
    (Some {| tv_sec := 5; tv_nsec := 0 |})
    (Some {| tv_sec := 10; tv_nsec := 0 |}) (Some 0) = Some (116, Some 0).
Proof. reflexivity. Qed.

Example timespec_of_minus_one_nanosecond :
  UTILS_NanosecondsToTimespec 32 (-1) zero_timespec
  = {| tv_sec := -1; tv_nsec := 999999999 |}.
Proof. reflexivity. Qed.

Example difference_with_borrow :
  UTILS_TimespecSubtract 32
    (Some {| tv_sec := 5; tv_nsec := 0 |})
    (Some {| tv_sec := 3; tv_nsec := 500000000 |}) (Some zero_timespec)
  = (0, Some {| tv_sec := 1; tv_nsec := 500000000 |}).
Proof. reflexivity. Qed.

Lemma UTILS_NanosecondsToTimespec_decomposition_witness :
  32 <= 32
  /\ INT64_MIN <= -1 <= INT64_MAX
  /\ 0 <= tv_nsec (UTILS_NanosecondsToTimespec 32 (-1) zero_timespec)
     < 1000000000
  /\ tv_sec (UTILS_NanosecondsToTimespec 32 (-1) zero_timespec) * 1000000000
     + tv_nsec (UTILS_NanosecondsToTimespec 32 (-1) zero_timespec) = -1.
Proof.
  split; [lia |].
  split; [unfold INT64_MIN, INT64_MAX; lia |].
  apply (proj1 (UTILS_NanosecondsToTimespec_decomposition 32 ltac:(lia))).
  unfold INT64_MIN, INT64_MAX; lia.
Defined.

Lemma UTILS_TimespecSubtract_cases_witness :
  32 <= 32
  /\ UTILS_TimespecCompare (Some {| tv_sec := 3; tv_nsec := 500000000 |})
                           (Some {| tv_sec := 5; tv_nsec := 0 |}) = -1
  /\ UTILS_TimespecSubtract 32
       (Some {| tv_sec := 3; tv_nsec := 500000000 |})
       (Some {| tv_sec := 5; tv_nsec := 0 |})
       (Some {| tv_sec := 7; tv_nsec := 7 |})
     = (1, Some {| tv_sec := 7; tv_nsec := 7 |}).
Proof.
  split; [lia |].
  split; [reflexivity |].
  apply (proj1 (UTILS_TimespecSubtract_cases 32 ltac:(lia) _ _ _)).
  reflexivity.
Defined.

Lemma UTILS_TimespecSubtract_normalized_no_error_witness :
  32 <= 32
  /\ 0 <= 0 < 1000000000
  /\ 0 <= 500000000 < 1000000000
  /\ UTILS_TimespecCompare (Some {| tv_sec := 5; tv_nsec := 0 |})
                           (Some {| tv_sec := 3; tv_nsec := 500000000 |}) = 1
  /\ fst (UTILS_TimespecSubtract 32
            (Some {| tv_sec := 5; tv_nsec := 0 |})
            (Some {| tv_sec := 3; tv_nsec := 500000000 |})
            (Some zero_timespec)) <> -1.
Proof.
  split; [lia |].
  split; [lia |].
  split; [lia |].
  split; [reflexivity |].
  apply (UTILS_TimespecSubtract_normalized_no_error 32 ltac:(lia)
           {| tv_sec := 5; tv_nsec := 0 |}
           {| tv_sec := 3; tv_nsec := 500000000 |}).
  - cbn; lia.
  - cbn; lia.
  - reflexivity.
Defined.

(** C4 as stated fails: [{1, 0}] compares above [{0, 1000000001}], and the
    subtraction returns -1. *)
Lemma UTILS_TimespecSubtract_error_reachable :
  UTILS_TimespecCompare (Some {| tv_sec := 1; tv_nsec := 0 |})
                        (Some {| tv_sec := 0; tv_nsec := 1000000001 |}) = 1
  /\ fst (UTILS_TimespecSubtract 32
            (Some {| tv_sec := 1; tv_nsec := 0 |})
            (Some {| tv_sec := 0; tv_nsec := 1000000001 |})
            (Some zero_timespec)) = -1.
Proof. split; reflexivity. Qed.

Lemma UTILS_TimespecAdd_sum_witness :
  32 <= 32
  /\ UTILS_TimespecAdd 32 None (Some zero_timespec) (Some zero_timespec)
     = (-1, Some zero_timespec).
Proof.
  split; [lia |].
  apply (proj1 (UTILS_TimespecAdd_sum 32 ltac:(lia))).
  left; reflexivity.
Defined.

Lemma UTILS_TimespecAdd_then_Subtract_witness :
  32 <= 32
  /\ 0 <= 700000000 < 1000000000
  /\ 0 <= total_ns {| tv_sec := 1; tv_nsec := 500000000 |} <= INT64_MAX
  /\ INT64_MIN <= total_ns {| tv_sec := 2; tv_nsec := 700000000 |}
     <= INT64_MAX
  /\ INT64_MIN <= total_ns {| tv_sec := 1; tv_nsec := 500000000 |}
                  + total_ns {| tv_sec := 2; tv_nsec := 700000000 |}
     <= INT64_MAX
  /\ exists s r : timespec,
      snd (UTILS_TimespecAdd 32
             (Some {| tv_sec := 1; tv_nsec := 500000000 |})
             (Some {| tv_sec := 2; tv_nsec := 700000000 |})
             (Some zero_timespec)) = Some s
      /\ UTILS_TimespecSubtract 32
           (Some s) (Some {| tv_sec := 2; tv_nsec := 700000000 |})
           (Some zero_timespec) = (0, Some r)
      /\ 0 <= tv_nsec r < 1000000000
      /\ total_ns r = total_ns {| tv_sec := 1; tv_nsec := 500000000 |}
      /\ (0 <= 500000000 < 1000000000 ->
          r = {| tv_sec := 1; tv_nsec := 500000000 |}).
Proof.
  split; [lia |].
  split; [lia |].
  split; [unfold INT64_MAX; cbn; lia |].
  split; [unfold INT64_MIN, INT64_MAX; cbn; lia |].
  split; [unfold INT64_MIN, INT64_MAX; cbn; lia |].
  apply (UTILS_TimespecAdd_then_Subtract 32 ltac:(lia)
           {| tv_sec := 1; tv_nsec := 500000000 |}
           {| tv_sec := 2; tv_nsec := 700000000 |}).
  - cbn; lia.
  - unfold INT64_MAX; cbn; lia.
  - unfold INT64_MIN, INT64_MAX; cbn; lia.
  - unfold INT64_MIN, INT64_MAX; cbn; lia.
Defined.

(** C8 as stated fails.  With [x = {-1, 0}] and [y = {0, 0}] nothing
    overflows, the sum is [{-1, 0}], and subtracting [y] from it returns 1
    without writing.  With [x = {0, 0}] and the non-normalized
    [y = {0, 2147483647}] the sum is [{2, 147483647}], and subtracting [y]
    from it returns -1. *)
Lemma UTILS_TimespecAdd_then_Subtract_fails :
  (INT64_MIN <= total_ns {| tv_sec := -1; tv_nsec := 0 |} <= INT64_MAX
   /\ INT64_MIN <= total_ns zero_timespec <= INT64_MAX
   /\ INT64_MIN <= total_ns {| tv_sec := -1; tv_nsec := 0 |}
                   + total_ns zero_timespec <= INT64_MAX
   /\ UTILS_TimespecAdd 32 (Some {| tv_sec := -1; tv_nsec := 0 |})
                        (Some zero_timespec) (Some zero_timespec)
      = (1, Some {| tv_sec := -1; tv_nsec := 0 |})
   /\ UTILS_TimespecSubtract 32 (Some {| tv_sec := -1; tv_nsec := 0 |})
                             (Some zero_timespec)
                             (Some {| tv_sec := 7; tv_nsec := 7 |})
      = (1, Some {| tv_sec := 7; tv_nsec := 7 |}))
  /\ (INT64_MIN <= total_ns zero_timespec <= INT64_MAX
      /\ INT64_MIN <= total_ns {| tv_sec := 0; tv_nsec := 2147483647 |}
         <= INT64_MAX
      /\ INT64_MIN <= total_ns zero_timespec
                      + total_ns {| tv_sec := 0; tv_nsec := 2147483647 |}
         <= INT64_MAX
      /\ UTILS_TimespecAdd 32 (Some zero_timespec)
                           (Some {| tv_sec := 0; tv_nsec := 2147483647 |})
                           (Some zero_timespec)
         = (0, Some {| tv_sec := 2; tv_nsec := 147483647 |})
      /\ fst (UTILS_TimespecSubtract 32
                (Some {| tv_sec := 2; tv_nsec := 147483647 |})
                (Some {| tv_sec := 0; tv_nsec := 2147483647 |})
                (Some zero_timespec)) = -1).
Proof.
  unfold INT64_MIN, INT64_MAX.
  repeat split; try reflexivity; cbn; lia.
Qed.

Lemma UTILS_TimespecToTicks_modular_witness :
  32 <= 32
  /\ 0 < 32 <= 64
  /\ 0 < 1000
  /\ 0 < 1000000 <= NANOSECONDS_PER_SECOND
  /\ 0 <= 1 < 1000000000
  /\ 0 <= 1
  /\ 1 * 1000 + ceil_div 1 1000000 < 2 ^ 32
  /\ UTILS_TimespecToTicks 32 32 1000 1000000 22
       (Some {| tv_sec := 1; tv_nsec := 1 |}) (Some 0)
     = Some (0, Some 1001).
Proof.
  split; [lia |].
  split; [lia |].
  split; [lia |].
  split; [unfold NANOSECONDS_PER_SECOND; lia |].
  split; [lia |].
  split; [lia |].
  split; [reflexivity |].
  apply (proj1 (proj2 (UTILS_TimespecToTicks_modular
                         32 32 1000 1000000 22
                         ltac:(lia) ltac:(lia) ltac:(lia)
                         ltac:(unfold NANOSECONDS_PER_SECOND; lia)
                         {| tv_sec := 1; tv_nsec := 1 |} 0
                         ltac:(cbn; lia) ltac:(cbn; lia)))).
  reflexivity.
Defined.

(** C1 as stated fails.  [{4294968, 0}] is normalized with [tv_sec >= 0];
    at 1000 ticks per second it stands for 4294968000 ticks, and the 32-bit
    [TickType_t] receives 704. *)
Lemma UTILS_TimespecToTicks_truncates :
  0 <= 0 < 1000000000
  /\ 0 <= 4294968
  /\ UTILS_TimespecToTicks 32 32 1000 1000000 22
       (Some {| tv_sec := 4294968; tv_nsec := 0 |}) (Some 0)
     = Some (0, Some 704)
  /\ UTILS_TimespecToTicks 32 32 1000 1000000 22
       (Some {| tv_sec := 4294968; tv_nsec := 0 |}) (Some 0)
     <> Some (0, Some (4294968 * 1000 + ceil_div 0 1000000)).
Proof.
  split; [lia |].
  split; [lia |].
  split; [reflexivity |].
  vm_compute. discriminate.
Qed.

Lemma UTILS_AbsoluteTimespecToDeltaTicks_status_witness :
  32 <= 32
  /\ 0 < 32 <= 64
  /\ 0 < 1000000 <= NANOSECONDS_PER_SECOND
  /\ 22 <> 0
  /\ 116 <> 0
  /\ 22 <> 116
  /\ UTILS_AbsoluteTimespecToDeltaTicks 32 32 1000 1000000 22 116
       (Some {| tv_sec := 5; tv_nsec := 0 |})
       (Some {| tv_sec := 10; tv_nsec := 0 |}) (Some 42)
     = Some (116, Some 42).
Proof.
  split; [lia |].
  split; [lia |].
  split; [unfold NANOSECONDS_PER_SECOND; lia |].
  split; [lia |].
  split; [lia |].
  split; [lia |].
  apply (UTILS_AbsoluteTimespecToDeltaTicks_status
           32 32 1000 1000000 22 116
           ltac:(lia) ltac:(lia)
           ltac:(unfold NANOSECONDS_PER_SECOND; lia)
           ltac:(lia) ltac:(lia) ltac:(lia)).
Defined.

Lemma tick_conversion_failure_leaves_result_witness :
  32 <= 32
  /\ 0 < 32 <= 64
  /\ 0 < 1000000 <= NANOSECONDS_PER_SECOND
  /\ 22 <> 0
  /\ 116 <> 0
  /\ exists (st : Z) (out : option Z),
      UTILS_TimespecToTicks 32 32 1000 1000000 22
        (Some {| tv_sec := 0; tv_nsec := 1000000000 |}) (Some 42)
      = Some (st, out)
      /\ (st = 0 \/ st = 22)
      /\ (st <> 0 -> out = Some 42).
Proof.
  split; [lia |].
  split; [lia |].
  split; [unfold NANOSECONDS_PER_SECOND; lia |].
  split; [lia |].
  split; [lia |].
  apply (proj1 (tick_conversion_failure_leaves_result
                  32 32 1000 1000000 22 116
                  ltac:(lia) ltac:(lia)
                  ltac:(unfold NANOSECONDS_PER_SECOND; lia)
                  ltac:(lia) ltac:(lia))).
Defined.

(** ** The further properties at concrete arguments *)

Ltac concrete :=
  first
    [ reflexivity
    | unfold normalized, total_ns, INT64_MIN, INT64_MAX,
        NANOSECONDS_PER_SECOND; cbn; lia
    | repeat constructor; discriminate ].

Lemma UTILS_strnlen_terminated_witness :
  Forall (fun c => c <> Byte.x00) [Byte.x61; Byte.x62]
  /\ 0 <= 5 < 2 ^ 32
  /\ UTILS_strnlen 32 (Some [Byte.x61; Byte.x62; Byte.x00; Byte.x63]) 5
     = Some 2.
Proof.
  split; [concrete |]. split; [concrete |].
  apply (proj2 (UTILS_strnlen_terminated 32)
           [Byte.x61; Byte.x62] [Byte.x63] 5); concrete.
Defined.

Lemma UTILS_strnlen_unterminated_witness :
  Forall (fun c => c <> Byte.x00) [Byte.x61; Byte.x62]
  /\ 0 <= 2 < 2 ^ 32
  /\ Z.of_nat (length [Byte.x61; Byte.x62]) <= 2
  /\ UTILS_strnlen 32 (Some [Byte.x61; Byte.x62]) 2 = None.
Proof.
  split; [concrete |]. split; [concrete |]. split; [concrete |].
  apply (proj2 (UTILS_strnlen_unterminated 32 [Byte.x61; Byte.x62] 2
                  ltac:(concrete) ltac:(concrete))).
  concrete.
Defined.


Lemma UTILS_TimespecCompare_order_witness :
  UTILS_TimespecCompare (Some {| tv_sec := 1; tv_nsec := 0 |})
                        (Some {| tv_sec := 2; tv_nsec := 0 |}) = -1
  /\ UTILS_TimespecCompare (Some {| tv_sec := 2; tv_nsec := 0 |})
                           (Some {| tv_sec := 2; tv_nsec := 0 |}) <> 1
  /\ UTILS_TimespecCompare (Some {| tv_sec := 1; tv_nsec := 0 |})
                           (Some {| tv_sec := 2; tv_nsec := 0 |}) = -1.
Proof.
  split; [concrete |]. split; [discriminate |].
  apply (proj1 (proj2 (proj2 UTILS_TimespecCompare_order))
           (Some {| tv_sec := 1; tv_nsec := 0 |})
           (Some {| tv_sec := 2; tv_nsec := 0 |})
           (Some {| tv_sec := 2; tv_nsec := 0 |}));
    [reflexivity | discriminate].
Defined.

Lemma UTILS_TimespecCompare_chronological_witness :
  0 <= 5 < 1000000000
  /\ 0 <= 7 < 1000000000
  /\ UTILS_TimespecCompare (Some {| tv_sec := 1; tv_nsec := 5 |})
                           (Some {| tv_sec := 1; tv_nsec := 7 |})
     = Z.sgn ((1 * 1000000000 + 5) - (1 * 1000000000 + 7)).
Proof.
  split; [concrete |]. split; [concrete |].
  apply (UTILS_TimespecCompare_chronological
           {| tv_sec := 1; tv_nsec := 5 |} {| tv_sec := 1; tv_nsec := 7 |});
    concrete.
Defined.

Lemma UTILS_TimespecSubtract_status_meaning_witness :
  UTILS_TimespecSubtract 32 None (Some zero_timespec) (Some zero_timespec)
  = (-1, Some zero_timespec).
Proof.
  apply (proj1 (proj2 (UTILS_TimespecSubtract_status_meaning
                         32 None (Some zero_timespec) (Some zero_timespec)))).
  left; reflexivity.
Defined.

Lemma UTILS_TimespecAddNanoseconds_sum_witness :
  32 <= 32
  /\ INT64_MIN <= -1 <= INT64_MAX
  /\ exists out : timespec,
      UTILS_TimespecAddNanoseconds 32
        (Some {| tv_sec := 1; tv_nsec := 0 |}) (-1) (Some zero_timespec)
      = (if int64_t (total_ns {| tv_sec := 1; tv_nsec := 0 |} + -1) <? 0
         then 1 else 0, Some out)
      /\ 0 <= tv_nsec out < 1000000000
      /\ total_ns out
         = int64_t (total_ns {| tv_sec := 1; tv_nsec := 0 |} + -1)
      /\ (INT64_MIN <= total_ns {| tv_sec := 1; tv_nsec := 0 |} + -1
          <= INT64_MAX ->
          total_ns out = total_ns {| tv_sec := 1; tv_nsec := 0 |} + -1).
Proof.
  split; [concrete |]. split; [concrete |].
  apply (proj2 (UTILS_TimespecAddNanoseconds_sum 32 ltac:(concrete))).
  concrete.
Defined.

Lemma UTILS_TimespecAddNanoseconds_is_Add_witness :
  32 <= 32
  /\ 0 <= 700000000 < 1000000000
  /\ INT64_MIN <= total_ns {| tv_sec := 2; tv_nsec := 700000000 |}
     <= INT64_MAX
  /\ UTILS_TimespecAddNanoseconds 32
       (Some {| tv_sec := 1; tv_nsec := 500000000 |})
       (total_ns {| tv_sec := 2; tv_nsec := 700000000 |})
       (Some zero_timespec)
     = UTILS_TimespecAdd 32
         (Some {| tv_sec := 1; tv_nsec := 500000000 |})
         (Some {| tv_sec := 2; tv_nsec := 700000000 |})
         (Some zero_timespec).
Proof.
  split; [concrete |]. split; [concrete |]. split; [concrete |].
  apply (UTILS_TimespecAddNanoseconds_is_Add 32 ltac:(concrete)); concrete.
Defined.

Lemma UTILS_TimespecAddNanoseconds_zero_witness :
  32 <= 32
  /\ 0 <= 500000000 < 1000000000
  /\ INT64_MIN <= total_ns {| tv_sec := -3; tv_nsec := 500000000 |}
     <= INT64_MAX
  /\ UTILS_TimespecAddNanoseconds 32
       (Some {| tv_sec := -3; tv_nsec := 500000000 |}) 0
       (Some zero_timespec)
     = (1, Some {| tv_sec := -3; tv_nsec := 500000000 |}).
Proof.
  split; [concrete |]. split; [concrete |]. split; [concrete |].
  apply (UTILS_TimespecAddNanoseconds_zero 32 ltac:(concrete)
           {| tv_sec := -3; tv_nsec := 500000000 |}); concrete.
Defined.

Lemma UTILS_TimespecAddNanoseconds_twice_witness :
  32 <= 32
  /\ INT64_MIN <= 1500000000 <= INT64_MAX
  /\ INT64_MIN <= -2000000001 <= INT64_MAX
  /\ INT64_MIN <= 1500000000 + -2000000001 <= INT64_MAX
  /\ exists mid : timespec,
      snd (UTILS_TimespecAddNanoseconds 32
             (Some {| tv_sec := 1; tv_nsec := 0 |}) 1500000000
             (Some zero_timespec)) = Some mid
      /\ UTILS_TimespecAddNanoseconds 32 (Some mid) (-2000000001)
           (Some zero_timespec)
         = UTILS_TimespecAddNanoseconds 32
             (Some {| tv_sec := 1; tv_nsec := 0 |})
             (1500000000 + -2000000001) (Some zero_timespec).
Proof.
  split; [concrete |]. split; [concrete |]. split; [concrete |].
  split; [concrete |].
  apply (UTILS_TimespecAddNanoseconds_twice 32 ltac:(concrete)); concrete.
Defined.

Lemma UTILS_TimespecAdd_assoc_witness :
  32 <= 32
  /\ exists xy yz : timespec,
      snd (UTILS_TimespecAdd 32
             (Some {| tv_sec := 1; tv_nsec := 600000000 |})
             (Some {| tv_sec := 2; tv_nsec := 700000000 |})
             (Some zero_timespec)) = Some xy
      /\ snd (UTILS_TimespecAdd 32
                (Some {| tv_sec := 2; tv_nsec := 700000000 |})
                (Some {| tv_sec := -5; tv_nsec := 800000000 |})
                (Some zero_timespec)) = Some yz
      /\ UTILS_TimespecAdd 32 (Some xy)
           (Some {| tv_sec := -5; tv_nsec := 800000000 |})
           (Some zero_timespec)
         = UTILS_TimespecAdd 32
             (Some {| tv_sec := 1; tv_nsec := 600000000 |}) (Some yz)
             (Some zero_timespec).
Proof.
  split; [concrete |].
  apply (UTILS_TimespecAdd_assoc 32 ltac:(concrete)); concrete.
Defined.

Lemma UTILS_TimespecSubtract_exact_witness :
  32 <= 32
  /\ 0 <= 0 < 1000000000
  /\ 0 <= 500000000 < 1000000000
  /\ UTILS_TimespecCompare (Some {| tv_sec := 5; tv_nsec := 0 |})
                           (Some {| tv_sec := 3; tv_nsec := 500000000 |})
     <> -1
  /\ 5 - 3 <= INT64_MAX
  /\ exists d : timespec,
      UTILS_TimespecSubtract 32
        (Some {| tv_sec := 5; tv_nsec := 0 |})
        (Some {| tv_sec := 3; tv_nsec := 500000000 |})
        (Some zero_timespec) = (0, Some d)
      /\ 0 <= tv_nsec d < 1000000000
      /\ total_ns d
         = total_ns {| tv_sec := 5; tv_nsec := 0 |}
           - total_ns {| tv_sec := 3; tv_nsec := 500000000 |}.
Proof.
  split; [concrete |]. split; [concrete |]. split; [concrete |].
  split; [discriminate |]. split; [concrete |].
  apply (UTILS_TimespecSubtract_exact 32 ltac:(concrete)
           {| tv_sec := 5; tv_nsec := 0 |}
           {| tv_sec := 3; tv_nsec := 500000000 |});
    first [discriminate | concrete].
Defined.

Lemma UTILS_TimespecSubtract_then_Add_witness :
  32 <= 32
  /\ exists d : timespec,
      UTILS_TimespecSubtract 32
        (Some {| tv_sec := 5; tv_nsec := 0 |})
        (Some {| tv_sec := 3; tv_nsec := 500000000 |})
        (Some zero_timespec) = (0, Some d)
      /\ UTILS_TimespecAdd 32 (Some d)
           (Some {| tv_sec := 3; tv_nsec := 500000000 |})
           (Some zero_timespec)
         = (if total_ns {| tv_sec := 5; tv_nsec := 0 |} <? 0 then 1 else 0,
            Some {| tv_sec := 5; tv_nsec := 0 |}).
Proof.
  split; [concrete |].
  apply (UTILS_TimespecSubtract_then_Add 32 ltac:(concrete)
           {| tv_sec := 5; tv_nsec := 0 |}
           {| tv_sec := 3; tv_nsec := 500000000 |});
    first [discriminate | concrete].
Defined.

Lemma UTILS_NanosecondsToTimespec_order_witness :
  32 <= 32
  /\ INT64_MIN <= -1 <= INT64_MAX
  /\ INT64_MIN <= 999999999 <= INT64_MAX
  /\ UTILS_TimespecCompare
       (Some (UTILS_NanosecondsToTimespec 32 (-1) zero_timespec))
       (Some (UTILS_NanosecondsToTimespec 32 999999999 zero_timespec))
     = Z.sgn (-1 - 999999999).
Proof.
  split; [concrete |]. split; [concrete |]. split; [concrete |].
  apply (UTILS_NanosecondsToTimespec_order 32 ltac:(concrete)); concrete.
Defined.

Lemma UTILS_TimespecToTicks_covers_witness :
  32 <= 32
  /\ 0 < 32 <= 64
  /\ 0 < 1000
  /\ 0 < 1000000 <= NANOSECONDS_PER_SECOND
  /\ 0 <= 1 < 1000000000
  /\ 0 <= 2
  /\ 1000000 * 1000 <= 1000000000
  /\ 2 * 1000 + ceil_div 1 1000000 < 2 ^ 32
  /\ exists t : Z,
      UTILS_TimespecToTicks 32 32 1000 1000000 22
        (Some {| tv_sec := 2; tv_nsec := 1 |}) (Some 0) = Some (0, Some t)
      /\ total_ns {| tv_sec := 2; tv_nsec := 1 |} * 1000 <= t * 1000000000
      /\ (t - 1) * 1000000 < total_ns {| tv_sec := 2; tv_nsec := 1 |}.
Proof.
  do 8 (split; [concrete |]).
  apply (UTILS_TimespecToTicks_covers 32 32 1000 1000000 22); concrete.
Defined.

Lemma UTILS_TimespecToTicks_ceiling_witness :
  32 <= 32
  /\ 0 < 32 <= 64
  /\ 0 < 1000
  /\ 0 < 1000000 <= NANOSECONDS_PER_SECOND
  /\ 0 <= 1 < 1000000000
  /\ 0 <= 2
  /\ 1000000 * 1000 = 1000000000
  /\ 2 * 1000 + ceil_div 1 1000000 < 2 ^ 32
  /\ UTILS_TimespecToTicks 32 32 1000 1000000 22
       (Some {| tv_sec := 2; tv_nsec := 1 |}) (Some 0)
     = Some (0, Some (ceil_div (total_ns {| tv_sec := 2; tv_nsec := 1 |})
                               1000000)).
Proof.
  do 8 (split; [concrete |]).
  apply (UTILS_TimespecToTicks_ceiling 32 32 1000 1000000 22); concrete.
Defined.

Lemma UTILS_TimespecToTicks_monotone_witness :
  32 <= 32
  /\ 0 < 32 <= 64
  /\ 0 < 1000
  /\ 0 < 1000000 <= NANOSECONDS_PER_SECOND
  /\ 1000000 * 1000 = 1000000000
  /\ UTILS_TimespecCompare (Some {| tv_sec := 0; tv_nsec := 999999999 |})
                           (Some {| tv_sec := 1; tv_nsec := 0 |}) <> 1
  /\ UTILS_TimespecToTicks 32 32 1000 1000000 22
       (Some {| tv_sec := 0; tv_nsec := 999999999 |}) (Some 0)
     = Some (0, Some 1000)
  /\ UTILS_TimespecToTicks 32 32 1000 1000000 22
       (Some {| tv_sec := 1; tv_nsec := 0 |}) (Some 0)
     = Some (0, Some 1000)
  /\ 1000 <= 1000.
Proof.
  do 5 (split; [concrete |]).
  split; [discriminate |]. split; [concrete |]. split; [concrete |].
  apply (UTILS_TimespecToTicks_monotone 32 32 1000 1000000 22
           ltac:(concrete) ltac:(concrete) ltac:(concrete) ltac:(concrete)
           {| tv_sec := 0; tv_nsec := 999999999 |}
           {| tv_sec := 1; tv_nsec := 0 |} 0);
    first [discriminate | concrete].
Defined.

Lemma UTILS_TimespecToTicks_status_witness :
  32 <= 32
  /\ 0 < 32 <= 64
  /\ 0 < 1000000 <= NANOSECONDS_PER_SECOND
  /\ 22 <> 0
  /\ (forall t : Z,
         UTILS_TimespecToTicks 32 32 1000 1000000 22
           (Some {| tv_sec := 0; tv_nsec := -1 |}) (Some 7)
         <> Some (0, Some t))
  /\ UTILS_TimespecToTicks 32 32 1000 1000000 22
       (Some {| tv_sec := 0; tv_nsec := -1 |}) (Some 7)
     = Some (22, Some 7).
Proof.
  do 4 (split; [concrete |]).
  split; [intros t; discriminate |].
  apply (proj2 (UTILS_TimespecToTicks_status 32 32 1000 1000000 22
                  ltac:(concrete) ltac:(concrete) ltac:(concrete)
                  ltac:(concrete)
                  (Some {| tv_sec := 0; tv_nsec := -1 |}) (Some 7))).
  intros t; discriminate.
Defined.

Lemma UTILS_AbsoluteTimespecToDeltaTicks_normalized_witness :
  32 <= 32
  /\ 0 < 32 <= 64
  /\ 0 < 1000000 <= NANOSECONDS_PER_SECOND
  /\ 22 <> 0
  /\ 116 <> 0
  /\ 0 <= 0 < 1000000000
  /\ total_ns {| tv_sec := 5; tv_nsec := 0 |}
     < total_ns {| tv_sec := 10; tv_nsec := 0 |}
  /\ UTILS_AbsoluteTimespecToDeltaTicks 32 32 1000 1000000 22 116
       (Some {| tv_sec := 5; tv_nsec := 0 |})
       (Some {| tv_sec := 10; tv_nsec := 0 |}) (Some 7)
     = Some (116, Some 7).
Proof.
  do 7 (split; [concrete |]).
  apply (proj1 (UTILS_AbsoluteTimespecToDeltaTicks_normalized
                  32 32 1000 1000000 22 116
                  ltac:(concrete) ltac:(concrete) ltac:(concrete)
                  ltac:(concrete) ltac:(concrete)
                  {| tv_sec := 5; tv_nsec := 0 |}
                  {| tv_sec := 10; tv_nsec := 0 |} 7
                  ltac:(concrete) ltac:(concrete))).
  concrete.
Defined.

Lemma UTILS_AbsoluteTimespecToDeltaTicks_now_witness :
  32 <= 32
  /\ 0 < 32 <= 64
  /\ 0 < 1000000 <= NANOSECONDS_PER_SECOND
  /\ 22 <> 0
  /\ 116 <> 0
  /\ UTILS_AbsoluteTimespecToDeltaTicks 32 32 1000 1000000 22 116
       (Some {| tv_sec := 5; tv_nsec := 2000000000 |})
       (Some {| tv_sec := 5; tv_nsec := 2000000000 |}) (Some 7)
     = Some (0, Some 0).
Proof.
  do 5 (split; [concrete |]).
  apply (UTILS_AbsoluteTimespecToDeltaTicks_now 32 32 1000 1000000 22 116);
    concrete.
Defined.

Lemma UTILS_AbsoluteTimespecToDeltaTicks_covers_witness :
  32 <= 32
  /\ 0 < 32 <= 64
  /\ 0 < 1000
  /\ 0 < 1000000 <= NANOSECONDS_PER_SECOND
  /\ 22 <> 0
  /\ 116 <> 0
  /\ total_ns {| tv_sec := 3; tv_nsec := 500000000 |}
     <= total_ns {| tv_sec := 5; tv_nsec := 1 |}
  /\ 5 - 3 <= INT64_MAX
  /\ 1000000 * 1000 <= 1000000000
  /\ exists t : Z,
      UTILS_AbsoluteTimespecToDeltaTicks 32 32 1000 1000000 22 116
        (Some {| tv_sec := 5; tv_nsec := 1 |})
        (Some {| tv_sec := 3; tv_nsec := 500000000 |}) (Some 7)
      = Some (0, Some t)
      /\ (total_ns {| tv_sec := 5; tv_nsec := 1 |}
          - total_ns {| tv_sec := 3; tv_nsec := 500000000 |}) * 1000
         <= t * 1000000000
      /\ (t - 1) * 1000000
         < total_ns {| tv_sec := 5; tv_nsec := 1 |}
           - total_ns {| tv_sec := 3; tv_nsec := 500000000 |}.
Proof.
  do 9 (split; [concrete |]).
  apply (UTILS_AbsoluteTimespecToDeltaTicks_covers
           32 32 1000 1000000 22 116); concrete.
Defined.
